(** * update_cdn.py: the CDN update bot of Kaleido

    A shallow embedding of [src/py/scripts/update_cdn.py].  The script is a
    straight-line orchestration of external tools (the [gh] and [git]
    command-line programs, one HTTP HEAD request, one text file and the
    changelog library).  Every interaction with the outside is an [Event]
    appended to a log, answered by an oracle ([World]) that may depend on the
    whole history; [sys.exit] and uncaught exceptions are outcomes of the
    monad [M]. *)

From Stdlib Require Import String Ascii List ZArith Bool Lia.
From Stdlib Require Import DecimalString.
Import ListNotations.
Local Open Scope string_scope.
Local Open Scope Z_scope.
Set Warnings "-register-all".

(** ** Python string operations used by the script *)

Module PyStr.

(** [s[n:]] *)
Fixpoint drop (n : nat) (s : string) : string :=
  match n, s with
  | O, _ => s
  | S _, EmptyString => EmptyString
  | S n', String _ s' => drop n' s'
  end.

(** [s.startswith(p)] *)
Definition startswith (p s : string) : bool := String.prefix p s.

(** [sub in s] *)
Fixpoint contains (sub s : string) : bool :=
  if startswith sub s then true
  else match s with
       | EmptyString => false
       | String _ s' => contains sub s'
       end.

(** [s.replace(old, new, 1)]: the leftmost occurrence only; an empty [old]
    matches at position 0. *)
Fixpoint replace_first (old new s : string) : string :=
  if startswith old s then new ++ drop (String.length old) s
  else match s with
       | EmptyString => EmptyString
       | String c s' => String c (replace_first old new s')
       end.

(** [bool(s)] for a string or a byte string: non-empty. *)
Definition truthy (s : string) : bool :=
  match s with EmptyString => false | _ => true end.

(** [str(n)] for an integer. *)
Definition of_Z (n : Z) : string := NilZero.string_of_int (Z.to_int n).

(** *** Bytes and text

    The output of a command is a byte string.  A [str] is held as its UTF-8
    encoding, so [bytes.decode()] is the identity on well-formed UTF-8 and
    raises [UnicodeDecodeError] on every other byte string.  Comparison,
    [in] and [replace] on text agree with the same operations on the
    encodings, UTF-8 being self-synchronising. *)

Definition between (lo hi : nat) (c : ascii) : bool :=
  (Nat.leb lo (nat_of_ascii c) && Nat.leb (nat_of_ascii c) hi)%bool.

(** A continuation byte. *)
Definition cont : ascii -> bool := between 128 191.

(** The first two bytes of a three-byte and of a four-byte sequence: no
    overlong form, no surrogate, nothing above U+10FFFF. *)
Definition lead3 (a b : ascii) : bool :=
  ((between 224 224 a && between 160 191 b) ||
   (between 225 236 a && cont b) ||
   (between 237 237 a && between 128 159 b) ||
   (between 238 239 a && cont b))%bool.

Definition lead4 (a b : ascii) : bool :=
  ((between 240 240 a && between 144 191 b) ||
   (between 241 243 a && cont b) ||
   (between 244 244 a && between 128 143 b))%bool.

(** Well-formed UTF-8, as the strict decoder of Python accepts it. *)
Fixpoint utf8 (s : string) : bool :=
  match s with
  | EmptyString => true
  | String a r =>
      if between 0 127 a then utf8 r
      else
        match r with
        | String b r2 =>
            if between 194 223 a then (cont b && utf8 r2)%bool
            else
              match r2 with
              | String c r3 =>
                  if lead3 a b then (cont c && utf8 r3)%bool
                  else
                    match r3 with
                    | String d r4 => (lead4 a b && cont c && cont d && utf8 r4)%bool
                    | EmptyString => false
                    end
              | EmptyString => false
              end
        | EmptyString => false
        end
  end.

(** [b.decode()]: [None] is [UnicodeDecodeError]. *)
Definition decode (b : string) : option string :=
  if utf8 b then Some b else None.

(** *** [s.strip()]

    The white space of [str.strip()] and [str.isspace()]: U+0009 to U+000D,
    U+001C to U+0020, U+0085, U+00A0, U+1680, U+2000 to U+200A, U+2028,
    U+2029, U+202F, U+205F and U+3000. *)
Definition is_space (c : ascii) : bool :=
  let n := nat_of_ascii c in
  (Nat.eqb n 32 || (Nat.leb 9 n && Nat.leb n 13) || (Nat.leb 28 n && Nat.leb n 31))%bool.

Definition is_byte (n : nat) (c : ascii) : bool := Nat.eqb (nat_of_ascii c) n.

(** The white space characters that take two and three bytes. *)
Definition space2 (a b : ascii) : bool :=
  (is_byte 194 a && (is_byte 133 b || is_byte 160 b))%bool.

Definition space3 (a b c : ascii) : bool :=
  ((is_byte 225 a && is_byte 154 b && is_byte 128 c) ||
   (is_byte 226 a && is_byte 128 b &&
      (between 128 138 c || is_byte 168 c || is_byte 169 c || is_byte 175 c)) ||
   (is_byte 226 a && is_byte 129 b && is_byte 159 c) ||
   (is_byte 227 a && is_byte 128 b && is_byte 128 c))%bool.

(** The number of bytes of the white space character that [s] starts with,
    0 when it starts with none. *)
Definition space_width (s : string) : nat :=
  match s with
  | String a (String b (String c _)) =>
      if is_space a then 1 else if space2 a b then 2 else if space3 a b c then 3 else 0
  | String a (String b EmptyString) =>
      if is_space a then 1 else if space2 a b then 2 else 0
  | String a EmptyString => if is_space a then 1 else 0
  | EmptyString => 0
  end.

(** The same for the white space character that the text ends with, read
    off the reversed bytes. *)
Definition space_width_end (reversed : string) : nat :=
  match reversed with
  | String c (String b (String a _)) =>
      if is_space c then 1 else if space2 b c then 2 else if space3 a b c then 3 else 0
  | String c (String b EmptyString) =>
      if is_space c then 1 else if space2 b c then 2 else 0
  | String c EmptyString => if is_space c then 1 else 0
  | EmptyString => 0
  end.

Fixpoint rev (s : string) : string :=
  match s with
  | EmptyString => EmptyString
  | String c s' => rev s' ++ String c EmptyString
  end.

(** Characters are dropped while [width] finds one; [n] bounds their
    number. *)
Fixpoint drop_while (width : string -> nat) (n : nat) (s : string) : string :=
  match n with
  | O => s
  | S n' =>
      match width s with
      | O => s
      | k => drop_while width n' (drop k s)
      end
  end.

Definition lstrip (s : string) : string :=
  drop_while space_width (String.length s) s.

Definition rstrip (s : string) : string :=
  rev (drop_while space_width_end (String.length s) (rev s)).

Definition strip (s : string) : string := rstrip (lstrip s).

End PyStr.

(** ** JSON values, as [json.loads] produces them *)

Inductive json : Type :=
| JNull
| JBool (b : bool)
| JNum (n : Z)
| JFloat (text : string) (nonzero : bool)
| JStr (s : string)
| JArr (items : list json)
| JObj (fields : list (string * json)).

Module Json.

(** [d.get(k)]: the value stored under [k], [None] when absent. *)
Fixpoint lookup (k : string) (fields : list (string * json)) : option json :=
  match fields with
  | [] => None
  | (k', v) :: rest => if String.eqb k k' then Some v else lookup k rest
  end.

(** [bool(v)] of a decoded value. *)
Definition truthy (v : json) : bool :=
  match v with
  | JNull => false
  | JBool b => b
  | JNum n => negb (Z.eqb n 0)
  | JFloat _ nz => nz
  | JStr s => PyStr.truthy s
  | JArr l => match l with [] => false | _ => true end
  | JObj l => match l with [] => false | _ => true end
  end.

End Json.

(** The jq program [map(.name | ltrimstr("v"))], filter by filter.  [None] is
    a jq error, which the binding raises as an exception. *)
Module Jq.

(** [.[]]: the elements of an array, the values of an object. *)
Definition iterate (v : json) : option (list json) :=
  match v with
  | JArr l => Some l
  | JObj kv => Some (List.map snd kv)
  | _ => None
  end.

(** [.name]: defined on objects and on null only. *)
Definition field (k : string) (v : json) : option json :=
  match v with
  | JObj kv => Some (match Json.lookup k kv with Some x => x | None => JNull end)
  | JNull => Some JNull
  | _ => None
  end.

(** [ltrimstr(p)]: strips the prefix from a string that has it and leaves
    every other string as it is; an input that is no string is an error. *)
Definition ltrimstr (p : string) (v : json) : option json :=
  match v with
  | JStr s =>
      Some (if PyStr.startswith p s then JStr (PyStr.drop (String.length p) s) else v)
  | _ => None
  end.

Fixpoint map_opt {A B} (f : A -> option B) (l : list A) : option (list B) :=
  match l with
  | [] => Some []
  | x :: r =>
      match f x with
      | None => None
      | Some y => match map_opt f r with None => None | Some ys => Some (y :: ys) end
      end
  end.

(** [map(.name | ltrimstr("v"))] and [.first()] of its single output. *)
Definition tag_names (v : json) : option (list json) :=
  match iterate v with
  | None => None
  | Some items =>
      map_opt (fun item =>
                 match field "name" item with
                 | Some name => ltrimstr "v" name
                 | None => None
                 end) items
  end.

End Jq.

(** ** The outside world *)

(** What [run] returns: [(stdout, stderr, returncode)], the first two as the
    bytes the process wrote. *)
Record CmdResult : Type := mkResult {
  stdout : string;
  stderr : string;
  returncode : Z
}.

Inductive Stream : Type := Out | Err.

(** One interaction with the outside, with the answer it got. *)
Inductive Event : Type :=
| Run (cmd : list string) (res : CmdResult)
| Head (url : string) (status : option Z)
| ReadText (path : string) (content : string)
| WriteText (path : string) (content : string)
| ChangelogUpdate (version title dir : string) (ok : bool)
| Print (to : Stream) (text : string).

(** The answers of the outside.  Each may depend on everything that happened
    before (the log, newest event first).  [head] answers the HTTP status, or
    [None] when the client raises instead of answering. *)
Record World : Type := mkWorld {
  exec : list Event -> list string -> CmdResult;
  head : list Event -> string -> option Z;
  changelog_update : list Event -> string -> string -> string -> bool
}.

(** The state of a run: the log (newest first) and the text of the page
    generator file at [FILE_PATH]. *)
Record State : Type := mkState {
  log : list Event;
  page_source : string
}.

Definition record (e : Event) (s : State) : State :=
  mkState (e :: log s) (page_source s).

(** How a computation ends: a value, [sys.exit(code)], or an exception that
    nothing catches. *)
Inductive Outcome (A : Type) : Type :=
| Return (a : A)
| Exit (code : Z)
| Raise (exn : string).
Arguments Return {A} a.
Arguments Exit {A} code.
Arguments Raise {A} exn.

Definition M (A : Type) : Type := State -> Outcome A * State.

Definition ret {A} (a : A) : M A := fun s => (Return a, s).

Definition bind {A B} (m : M A) (k : A -> M B) : M B :=
  fun s =>
    match m s with
    | (Return a, s') => k a s'
    | (Exit c, s') => (Exit c, s')
    | (Raise e, s') => (Raise e, s')
    end.

Definition sys_exit {A} (code : Z) : M A := fun s => (Exit code, s).
Definition raise {A} (exn : string) : M A := fun s => (Raise exn, s).

Declare Scope py_scope.
Delimit Scope py_scope with py.
Notation "x <- m ;; k" := (bind m (fun x => k))
  (at level 100, m at next level, right associativity) : py_scope.
Notation "m ;; k" := (bind m (fun _ => k))
  (at level 100, right associativity) : py_scope.
Local Open Scope py_scope.

(** The exit status of the interpreter for an outcome of [asyncio.run(main())]. *)
Definition exit_code (o : Outcome unit) : Z :=
  match o with
  | Return _ => 0
  | Exit c => c
  | Raise _ => 1
  end.

(** ** Classifying the events of a log *)

Definition is_run_of (prog : string) (e : Event) : bool :=
  match e with
  | Run (p :: _) _ => String.eqb p prog
  | _ => false
  end.

Definition is_git (e : Event) : bool := is_run_of "git" e.

Definition is_gh_sub (a b : string) (e : Event) : bool :=
  match e with
  | Run (p :: x :: y :: _) _ => (String.eqb p "gh" && String.eqb x a && String.eqb y b)%bool
  | _ => false
  end.

Definition is_pr_create : Event -> bool := is_gh_sub "pr" "create".
Definition is_pr_op (e : Event) : bool :=
  match e with
  | Run (p :: x :: _) _ => (String.eqb p "gh" && String.eqb x "pr")%bool
  | _ => false
  end.
Definition is_issue_create : Event -> bool := is_gh_sub "issue" "create".
Definition is_issue_op (e : Event) : bool :=
  match e with
  | Run (p :: x :: _) _ => (String.eqb p "gh" && String.eqb x "issue")%bool
  | _ => false
  end.
Definition is_write (e : Event) : bool :=
  match e with WriteText _ _ => true | _ => false end.
Definition is_changelog (e : Event) : bool :=
  match e with ChangelogUpdate _ _ _ _ => true | _ => false end.
Definition is_print (e : Event) : bool :=
  match e with Print _ _ => true | _ => false end.

Definition count (f : Event -> bool) (l : list Event) : nat :=
  List.length (List.filter f l).

(** ** Python's [max] over a non-empty list, with [>] as the comparison *)

Section PyMax.
Context {V : Type} (gt : V -> V -> bool).

Fixpoint max_from (m : V) (l : list V) : V :=
  match l with
  | [] => m
  | x :: r => max_from (if gt x m then x else m) r
  end.

Definition py_max (l : list V) : option V :=
  match l with
  | [] => None
  | x :: r => Some (max_from x r)
  end.
End PyMax.

(** ** The setting of the script *)

(** [os.environ] and the two names imported from
    [py.kaleido._page_generator]. *)
Class Config : Type := {
  REPO : string;
  GITHUB_WORKSPACE : string;
  DEFAULT_PLOTLY : string;
  FILE_PATH : string
}.

(** The pure library functions the script calls. *)
Class Library : Type := {
  (** [json.loads], of bytes or of text: [None] when it raises. *)
  json_loads : string -> option json;
  (** [repr] of a decoded list or dict inside an f-string; never reached on
      the answers [gh] gives. *)
  py_repr : json -> string;
  (** The [semver] package: [VersionInfo.parse] ([None] for [ValueError]),
      [VersionInfo.compare] and [str]. *)
  Version : Type;
  semver_parse : string -> option Version;
  semver_compare : Version -> Version -> comparison;
  semver_str : Version -> string
}.

(** ** The script *)

Section Script.

Context {cfg : Config} {lib : Library}.
Variable w : World.

(** *** Primitive effects *)

(** [run(commands)]: start the process, wait, collect its output. *)
Definition run (commands : list string) : M CmdResult :=
  fun s =>
    let r := exec w (log s) commands in
    (Return r, record (Run commands r) s).

Definition print (to : Stream) (text : string) : M unit :=
  fun s => (Return tt, record (Print to text) s).

(** [verify_url(url)]: one HEAD request, true iff the status is 200. *)
Definition verify_url (url : string) : M bool :=
  fun s =>
    match head w (log s) url with
    | Some status => (Return (status =? 200), record (Head url (Some status)) s)
    | None => (Raise "ClientError", record (Head url None) s)
    end.

(** [Path(FILE_PATH).read_text()] and [.write_text(s)]. *)
Definition read_text : M string :=
  fun s => (Return (page_source s), record (ReadText FILE_PATH (page_source s)) s).

Definition write_text (content : string) : M unit :=
  fun s => (Return tt, mkState (WriteText FILE_PATH content :: log s) content).

(** [b.decode()]: the text, or [UnicodeDecodeError]. *)
Definition decode (b : string) : M string :=
  match PyStr.decode b with
  | Some text => ret text
  | None => raise "UnicodeDecodeError"
  end.

(** [changelog.update(version, title, path)]. *)
Definition changelog (version title dir : string) : M bool :=
  fun s =>
    let ok := changelog_update w (log s) version title dir in
    (Return ok, record (ChangelogUpdate version title dir ok) s).

(** *** [get_latest_version] *)

Definition gt (a b : Version) : bool :=
  match semver_compare a b with Gt => true | _ => false end.

(** [semver.VersionInfo.parse(v)]: a value that is not a string is a
    [TypeError], a string that is not a version a [ValueError]. *)
Definition parse_tag (v : json) : string + Version :=
  match v with
  | JStr s => match semver_parse s with Some x => inr x | None => inl "ValueError" end
  | _ => inl "TypeError"
  end.

(** [[semver.VersionInfo.parse(v) for v in tags]] *)
Fixpoint parse_tags (tags : list json) : string + list Version :=
  match tags with
  | [] => inr []
  | v :: rest =>
      match parse_tag v with
      | inl e => inl e
      | inr x =>
          match parse_tags rest with
          | inl e => inl e
          | inr xs => inr (x :: xs)
          end
      end
  end.

Definition tags_cmd : list string :=
  ["gh"; "api"; "repos/plotly/plotly.js/tags"; "--paginate"].

(** [json.loads] of bytes raises [JSONDecodeError] or [UnicodeDecodeError],
    both of them [ValueError]s. *)
Definition get_latest_version : M string :=
  r <- run tags_cmd ;;
  match json_loads (stdout r) with
  | None => raise "ValueError"
  | Some doc =>
      match Jq.tag_names doc with
      | None => raise "ValueError"
      | Some tags =>
          match parse_tags tags with
          | inl e => raise e
          | inr versions =>
              (if PyStr.truthy (stderr r)
               then (text <- decode (stderr r) ;; print Out text ;; sys_exit 1)
               else ret tt) ;;
              match py_max gt versions with
              | None => raise "ValueError"
              | Some m => ret (semver_str m)
              end
          end
      end
  end.

(** *** [create_pr] *)

Definition branch_of (latest_version : string) : string :=
  "bot/update-cdn-" ++ latest_version.
Definition pr_title (latest_version : string) : string :=
  "Update Plotly.js CDN to v" ++ latest_version.
Definition pr_body (latest_version : string) : string :=
  "This PR updates the CDN URL to v" ++ latest_version ++ ".".

Definition branch_cmd (branch : string) : list string :=
  ["gh"; "api"; "repos/" ++ REPO ++ "/branches/" ++ branch; "--silent"].
Definition pr_list_cmd (branch : string) : list string :=
  ["gh"; "pr"; "list"; "-R"; REPO; "-H"; branch; "--state"; "all"].
Definition checkout_cmd (branch : string) : list string :=
  ["git"; "checkout"; "-b"; branch].
Definition add_cmd : list string := ["git"; "add"; "."].
Definition commit_cmd (title : string) : list string :=
  ["git"; "-c"; "user.name='github-actions'";
   "-c"; "user.email='github-actions@github.com'";
   "commit"; "-m"; "chore: " ++ title].
Definition push_cmd (branch : string) : list string :=
  ["git"; "push"; "-u"; "origin"; branch].
Definition pr_create_cmd (branch title body : string) : list string :=
  ["gh"; "pr"; "create"; "-B"; "master"; "-H"; branch; "-t"; title; "-b"; body].

Definition create_pr (latest_version : string) : M unit :=
  let branch := branch_of latest_version in
  let title := pr_title latest_version in
  let body := pr_body latest_version in
  b <- run (branch_cmd branch) ;;
  let branch_exists := returncode b =? 0 in
  (if branch_exists
   then (print Err ("The branch " ++ branch ++ " already exists") ;; sys_exit 1)
   else
     msg <- decode (stderr b) ;;
     if negb (PyStr.contains "HTTP 404" msg)
     then (print Err msg ;; sys_exit 1)
     else ret tt) ;;
  pr <- run (pr_list_cmd branch) ;;
  listed <- decode (stdout pr) ;;
  (if PyStr.truthy listed
   then (print Err ("Pull request for '" ++ branch ++ "' already exists") ;; sys_exit 1)
   else ret tt) ;;
  file_updated <- changelog latest_version title GITHUB_WORKSPACE ;;
  (if negb file_updated
   then (print Err "Failed to update changelog" ;; sys_exit 1)
   else ret tt) ;;
  run (checkout_cmd branch) ;;
  run add_cmd ;;
  run (commit_cmd title) ;;
  push <- run (push_cmd branch) ;;
  (if negb (returncode push =? 0)
   then (text <- decode (stderr push) ;; print Err text ;; sys_exit 1)
   else ret tt) ;;
  new_pr <- run (pr_create_cmd branch title body) ;;
  (if negb (returncode new_pr =? 0)
   then (text <- decode (stderr new_pr) ;; print Err text ;; sys_exit 1)
   else ret tt) ;;
  link <- decode (stdout new_pr) ;;
  print Out ("Pull request: " ++ PyStr.strip link).

(** *** [verify_issue] and [create_issue] *)

Definition issue_list_cmd (title : string) : list string :=
  ["gh"; "issue"; "list"; "-R"; REPO; "--search"; title;
   "--state"; "all"; "--json"; "number,state"].
Definition issue_create_cmd (title body : string) : list string :=
  ["gh"; "issue"; "create"; "-R"; REPO; "-t"; title; "-b"; body].

(** A value inside an f-string. *)
Definition fmt (v : option json) : string :=
  match v with
  | None | Some JNull => "None"
  | Some (JBool true) => "True"
  | Some (JBool false) => "False"
  | Some (JNum n) => PyStr.of_Z n
  | Some (JFloat text _) => text
  | Some (JStr s) => s
  | Some v => py_repr v
  end.

(** [issue.get("state") == "OPEN"] *)
Definition is_open (fields : list (string * json)) : bool :=
  match Json.lookup "state" fields with
  | Some (JStr s) => String.eqb s "OPEN"
  | _ => false
  end.

Definition issue_url (fields : list (string * json)) : string :=
  "https://github.com/" ++ REPO ++ "/issues/" ++ fmt (Json.lookup "number" fields).

(** The [for issue in issues] loop; an element that is not a dict has no
    [get]. *)
Fixpoint scan_issues (title : string) (issues : list json) : M unit :=
  match issues with
  | [] => ret tt
  | JObj fields :: rest =>
      if is_open fields
      then (print Out ("Issue '" ++ title ++ "' already exists in:") ;;
            print Out (issue_url fields) ;;
            sys_exit 1)
      else scan_issues title rest
  | _ :: _ => raise "AttributeError"
  end.

Definition verify_issue (title : string) : M unit :=
  issue <- run (issue_list_cmd title) ;;
  text <- decode (stdout issue) ;;
  match json_loads text with
  | None => raise "JSONDecodeError"
  | Some issues =>
      if Json.truthy issues
      then
        match issues with
        | JArr l =>
            scan_issues title l ;;
            print Out ("Issue '" ++ title ++ "' is closed") ;;
            sys_exit 0
        | JObj _ | JStr _ => raise "AttributeError"
        | _ => raise "TypeError"
        end
      else ret tt
  end.

Definition create_issue (title body : string) : M unit :=
  new_issue <- run (issue_create_cmd title body) ;;
  (if PyStr.truthy (stderr new_issue)
   then (text <- decode (stderr new_issue) ;; print Out text ;; sys_exit 1)
   else ret tt) ;;
  link <- decode (stdout new_issue) ;;
  print Out ("The issue '" ++ title ++ "' was created in " ++ PyStr.strip link).

(** *** [main] *)

Definition cdn_url (latest_version : string) : string :=
  "https://cdn.plot.ly/plotly-" ++ latest_version ++ ".js".
Definition issue_title (latest_version : string) : string :=
  "CDN not reachable for Plotly.js v" ++ latest_version.
Definition issue_body (new_cdn : string) : string :=
  "URL: " ++ new_cdn ++ " - invalid url".

Definition main : M unit :=
  latest_version <- get_latest_version ;;
  let new_cdn := cdn_url latest_version in
  (if String.eqb new_cdn DEFAULT_PLOTLY
   then (print Out "Already up to date" ;; sys_exit 0)
   else ret tt) ;;
  cdn_exists <- verify_url new_cdn ;;
  if cdn_exists
  then
    s <- read_text ;;
    write_text (PyStr.replace_first DEFAULT_PLOTLY new_cdn s) ;;
    create_pr latest_version
  else
    let title := issue_title latest_version in
    let body := issue_body new_cdn in
    verify_issue title ;;
    create_issue title body.

(** A run of the script: [asyncio.run(main())] from an empty log, with the
    page generator file holding [source]. *)
Definition start (source : string) : State := mkState [] source.
Definition run_script (source : string) : Outcome unit * State :=
  main (start source).

End Script.

(** ** What a finished run observed

    The specification speaks of runs "in which the URL is reachable", "in which the
    branch exists", and so on.  A run knows these facts only through the
    answers it got, so they are read off the log of the finished run. *)

Section Observations.

Context {cfg : Config} {lib : Library}.

(** The tag listing resolved to [v]. *)
Definition resolves (w : World) (source v : string) : Prop :=
  exists s1, get_latest_version w (start source) = (Return v, s1).

(** The HEAD request was answered, with status 200 or with another one. *)
Definition reachable (l : list Event) (url : string) : Prop :=
  In (Head url (Some 200)) l.
Definition unreachable (l : list Event) (url : string) : Prop :=
  exists status, In (Head url (Some status)) l /\ status <> 200.

(** The branch lookup said the branch is there, or said HTTP 404 in a
    stderr that decodes. *)
Definition branch_found (l : list Event) (branch : string) : Prop :=
  exists r, In (Run (branch_cmd branch) r) l /\ returncode r = 0.
Definition branch_missing (l : list Event) (branch : string) : Prop :=
  exists r msg, In (Run (branch_cmd branch) r) l /\
                returncode r <> 0 /\
                PyStr.decode (stderr r) = Some msg /\
                PyStr.contains "HTTP 404" msg = true.

(** The pull request listing for the branch printed something, or nothing. *)
Definition pr_found (l : list Event) (branch : string) : Prop :=
  exists r, In (Run (pr_list_cmd branch) r) l /\ stdout r <> "".
Definition pr_missing (l : list Event) (branch : string) : Prop :=
  exists r, In (Run (pr_list_cmd branch) r) l /\ stdout r = "".

(** The changelog library reported success; [git push] exited with 0. *)
Definition changelog_ok (l : list Event) (v : string) : Prop :=
  In (ChangelogUpdate v (pr_title v) GITHUB_WORKSPACE true) l.
Definition pushed (l : list Event) (branch : string) : Prop :=
  exists r, In (Run (push_cmd branch) r) l /\ returncode r = 0.

(** [git checkout -b] exited with 0 whenever the run issued it. *)
Definition checkout_ok (l : list Event) : Prop :=
  forall branch r,
    In (Run ["git"; "checkout"; "-b"; branch] r) l -> returncode r = 0.

(** The issue search answered text that is the JSON array of these
    objects. *)
Definition issues_listed (l : list Event) (title : string)
    (issues : list (list (string * json))) : Prop :=
  exists r text,
    In (Run (issue_list_cmd title) r) l /\
    PyStr.decode (stdout r) = Some text /\
    json_loads text = Some (JArr (List.map JObj issues)).

(** [issue["state"]] of a listed issue. *)
Definition state_is (st : string) (issue : list (string * json)) : Prop :=
  Json.lookup "state" issue = Some (JStr st).

(** The text the run printed contains a line. *)
Definition printed (l : list Event) (text : string) : Prop :=
  exists to, In (Print to text) l.

(** [t] is [s] with the leftmost occurrence of [old] replaced by [new], or
    [s] itself when [old] does not occur. *)
Definition first_replaced (old new s t : string) : Prop :=
  (PyStr.contains old s = false /\ t = s) \/
  (exists pre post,
      s = pre ++ old ++ post /\ t = pre ++ new ++ post /\
      forall pre' post', s = pre' ++ old ++ post' ->
                         (String.length pre <= String.length pre')%nat).

(** The three parts of a publication, with the names spelled out: the file
    is edited once (the first occurrence of the old URL replaced by the new
    one), the branch is created ([git checkout -b] ran and exited with 0),
    and one pull request is opened. *)
Definition edited_once (l : list Event) (source v : string) : Prop :=
  exists t,
    List.filter is_write l = [WriteText FILE_PATH t] /\
    first_replaced DEFAULT_PLOTLY ("https://cdn.plot.ly/plotly-" ++ v ++ ".js")
                   source t.

Definition branch_created (l : list Event) (v : string) : Prop :=
  exists r, In (Run ["git"; "checkout"; "-b"; "bot/update-cdn-" ++ v] r) l /\
            returncode r = 0.

Definition one_pr_created (l : list Event) (v : string) : Prop :=
  exists r,
    List.filter is_pr_create l =
      [Run ["gh"; "pr"; "create"; "-B"; "master"; "-H"; "bot/update-cdn-" ++ v;
            "-t"; "Update Plotly.js CDN to v" ++ v;
            "-b"; "This PR updates the CDN URL to v" ++ v ++ "."] r].

Definition published (l : list Event) (source v : string) : Prop :=
  branch_created l v /\ edited_once l source v /\ one_pr_created l v.

(** The output of the tag listing decodes to a list of versions. *)
Definition lists_versions (r : CmdResult) : Prop :=
  exists doc tags versions,
    json_loads (stdout r) = Some doc /\
    Jq.tag_names doc = Some tags /\
    parse_tags tags = inr versions.

(** A command whose failure stops the run, with the test the script makes
    on its answer. *)
Definition checked_failure (cmd : list string) (r : CmdResult) : Prop :=
  (cmd = tags_cmd /\ stderr r <> "" /\ lists_versions r) \/
  (exists b, cmd = branch_cmd b /\ returncode r <> 0 /\
             forall msg, PyStr.decode (stderr r) = Some msg ->
                         PyStr.contains "HTTP 404" msg = false) \/
  (exists b, cmd = push_cmd b /\ returncode r <> 0) \/
  (exists b t body, cmd = pr_create_cmd b t body /\ returncode r <> 0) \/
  (exists t body, cmd = issue_create_cmd t body /\ stderr r <> "").

(** Any command that exits with a nonzero code or writes to stderr. *)
Definition failed (r : CmdResult) : Prop :=
  returncode r <> 0 \/ stderr r <> "".

(** The one failure that the specification calls expected: the branch
    lookup that says HTTP 404. *)
Definition expected_answer (cmd : list string) (r : CmdResult) : Prop :=
  exists b msg, cmd = branch_cmd b /\ returncode r <> 0 /\
                PyStr.decode (stderr r) = Some msg /\
                PyStr.contains "HTTP 404" msg = true.

(** ** Readings of the specification that are stronger than the script *)

(** A reachable new release with no branch and no pull request reaches
    [goal] under the further condition [cond]; with no further condition
    and [published] as the goal this is the specification's sentence. *)
Definition publishes_given (cond : list Event -> string -> Prop)
    (goal : list Event -> string -> string -> Prop)
    (w : World) (source : string) : Prop :=
  forall v o st,
    resolves w source v ->
    run_script w source = (o, st) ->
    reachable (log st) (cdn_url v) ->
    branch_missing (log st) (branch_of v) ->
    pr_missing (log st) (branch_of v) ->
    cond (log st) v ->
    goal (log st) source v.

Definition publishes_every_new_release (w : World) (source : string) : Prop :=
  publishes_given (fun _ _ => True) published w source.

(** A failure of [cmd], in the sense of [failed] and other than the expected
    one, ends the run with the stderr printed and exit code 1. *)
Definition failure_is_fatal_for (w : World) (source : string)
    (cmd : list string) : Prop :=
  forall o st r,
    run_script w source = (o, st) ->
    In (Run cmd r) (log st) ->
    failed r ->
    ~ expected_answer cmd r ->
    o = Exit 1 /\ printed (log st) (stderr r).

Definition every_failure_is_fatal (w : World) (source : string) : Prop :=
  forall cmd, failure_is_fatal_for w source cmd.

(** The URL is unreachable for a world when the HEAD request never gets
    status 200, be it another status or no answer at all; an issue exists
    for a world when the search would list it. *)
Definition never_200 (w : World) (url : string) : Prop :=
  forall h, head w h url <> Some 200.

Definition would_list (w : World) (title : string)
    (issues : list (list (string * json))) : Prop :=
  forall h, exists text,
    PyStr.decode (stdout (exec w h (issue_list_cmd title))) = Some text /\
    json_loads text = Some (JArr (List.map JObj issues)).



Definition missing_issue_is_filed (w : World) (source : string) : Prop :=
  forall v o st,
    resolves w source v ->
    run_script w source = (o, st) ->
    never_200 w (cdn_url v) ->
    would_list w (issue_title v) [] ->
    count is_issue_create (log st) = 1%nat.

(** The branch lookup is classified by its exit code and by the substring
    in the bytes of its stderr, with nothing else to it. *)
Definition lookup_is_classified (w : World) (source : string) : Prop :=
  forall v o st r,
    resolves w source v ->
    run_script w source = (o, st) ->
    In (Run (branch_cmd (branch_of v)) r) (log st) ->
    (returncode r = 0 -> o = Exit 1) /\
    (returncode r <> 0 -> PyStr.contains "HTTP 404" (stderr r) = true ->
       exists rp, In (Run (pr_list_cmd (branch_of v)) rp) (log st)) /\
    (returncode r <> 0 -> PyStr.contains "HTTP 404" (stderr r) = false ->
       o = Exit 1 /\ printed (log st) (stderr r)).

End Observations.

(** The spec's ordering assumption on the [semver] package: [compare] is a
    precedence order. *)
Class PrecedenceOrder (lib : Library) : Prop := {
  compare_antisym : forall a b : Version,
    semver_compare b a = CompOpp (semver_compare a b);
  compare_trans : forall a b c : Version,
    semver_compare a b = Gt -> semver_compare b c = Gt -> semver_compare a c = Gt
}.

(** A tag name as [ltrimstr("v")] leaves it. *)
Definition strip_v (name : string) : string :=
  if PyStr.startswith "v" name then PyStr.drop 1 name else name.

(** ** A model of the [semver] package

    Versions as [semver.VersionInfo] holds them, for ASCII input: the parser
    follows the package's regular expression, the comparison its [compare]
    (numeric fields first, then the pre-release identifiers; build metadata
    plays no part). *)

Module SemVer.

Inductive ident : Type :=
| Numeric (n : N)
| Alnum (s : string).

(** [prerelease] is [[]] when there is none. *)
Record t : Type := mk {
  major : N;
  minor : N;
  patch : N;
  prerelease : list ident;
  build : option string
}.

(** *** Parsing *)

Definition is_digit (c : ascii) : bool :=
  let n := nat_of_ascii c in (Nat.leb 48 n && Nat.leb n 57)%bool.

Definition is_letter (c : ascii) : bool :=
  let n := nat_of_ascii c in
  ((Nat.leb 65 n && Nat.leb n 90) || (Nat.leb 97 n && Nat.leb n 122))%bool.

Definition is_ident_char (c : ascii) : bool :=
  (is_digit c || is_letter c || Ascii.eqb c "-")%bool.

Fixpoint all (p : ascii -> bool) (s : string) : bool :=
  match s with
  | EmptyString => true
  | String c s' => (p c && all p s')%bool
  end.

(** [s.split(sep)] for a one-character separator. *)
Fixpoint split (sep : ascii) (s : string) : list string :=
  match s with
  | EmptyString => [EmptyString]
  | String c s' =>
      if Ascii.eqb c sep then EmptyString :: split sep s'
      else match split sep s' with
           | p :: ps => String c p :: ps
           | [] => [String c EmptyString]
           end
  end.

(** The text before the first [sep], and the text after it if there is one. *)
Fixpoint cut (sep : ascii) (s : string) : string * option string :=
  match s with
  | EmptyString => (EmptyString, None)
  | String c s' =>
      if Ascii.eqb c sep then (EmptyString, Some s')
      else let '(a, b) := cut sep s' in (String c a, b)
  end.

Fixpoint value (acc : N) (s : string) : N :=
  match s with
  | EmptyString => acc
  | String c s' => value (acc * 10 + (N_of_ascii c - 48))%N s'
  end.

(** [0|[1-9]\d*] *)
Definition parse_numeric (s : string) : option N :=
  match s with
  | EmptyString => None
  | String "0" EmptyString => Some 0%N
  | String "0" _ => None
  | _ => if all is_digit s then Some (value 0%N s) else None
  end.

(** [0|[1-9]\d*|\d*[a-zA-Z-][0-9a-zA-Z-]*] *)
Definition parse_ident (s : string) : option ident :=
  match s with
  | EmptyString => None
  | _ =>
      if all is_digit s then option_map Numeric (parse_numeric s)
      else if all is_ident_char s then Some (Alnum s)
      else None
  end.

(** [[0-9a-zA-Z-]+] *)
Definition build_ident_ok (s : string) : bool :=
  match s with
  | EmptyString => false
  | _ => all is_ident_char s
  end.

Fixpoint parse_idents (l : list string) : option (list ident) :=
  match l with
  | [] => Some []
  | x :: r =>
      match parse_ident x, parse_idents r with
      | Some i, Some ids => Some (i :: ids)
      | _, _ => None
      end
  end.

Definition parse (s : string) : option t :=
  let '(front, bld) := cut "+" s in
  let '(core, pre) := cut "-" front in
  match split "." core with
  | [a; b; c] =>
      match parse_numeric a, parse_numeric b, parse_numeric c with
      | Some ma, Some mi, Some pa =>
          let pre_ids :=
            match pre with
            | None => Some []
            | Some p => parse_idents (split "." p)
            end in
          let bld_ok :=
            match bld with
            | None => true
            | Some b => forallb build_ident_ok (split "." b)
            end in
          match pre_ids with
          | Some ids => if bld_ok then Some (mk ma mi pa ids bld) else None
          | None => None
          end
      | _, _, _ => None
      end
  | _ => None
  end.

(** *** Precedence *)

Definition lex (c d : comparison) : comparison :=
  match c with Eq => d | ne => ne end.

Definition compare_ident (a b : ident) : comparison :=
  match a, b with
  | Numeric x, Numeric y => N.compare x y
  | Numeric _, Alnum _ => Lt
  | Alnum _, Numeric _ => Gt
  | Alnum x, Alnum y => String.compare x y
  end.

Fixpoint compare_idents (a b : list ident) : comparison :=
  match a, b with
  | [], [] => Eq
  | [], _ :: _ => Lt
  | _ :: _, [] => Gt
  | x :: a', y :: b' => lex (compare_ident x y) (compare_idents a' b')
  end.

(** A version without pre-release ranks above the same version with one. *)
Definition compare_prerelease (a b : list ident) : comparison :=
  match a, b with
  | [], [] => Eq
  | [], _ :: _ => Gt
  | _ :: _, [] => Lt
  | _, _ => compare_idents a b
  end.

Definition compare (a b : t) : comparison :=
  lex (N.compare (major a) (major b))
    (lex (N.compare (minor a) (minor b))
       (lex (N.compare (patch a) (patch b))
          (compare_prerelease (prerelease a) (prerelease b)))).

(** *** [str] *)

Definition of_N (n : N) : string := NilZero.string_of_uint (N.to_uint n).

Definition ident_str (i : ident) : string :=
  match i with
  | Numeric n => of_N n
  | Alnum s => s
  end.

Fixpoint join (sep : string) (l : list string) : string :=
  match l with
  | [] => EmptyString
  | [x] => x
  | x :: r => x ++ sep ++ join sep r
  end.

Definition to_str (v : t) : string :=
  of_N (major v) ++ "." ++ of_N (minor v) ++ "." ++ of_N (patch v)
  ++ match prerelease v with
     | [] => EmptyString
     | ids => "-" ++ join "." (List.map ident_str ids)
     end
  ++ match build v with
     | None => EmptyString
     | Some b => "+" ++ b
     end.

End SemVer.

(** ** A concrete setting and a few scripted worlds

    Used to run the script on examples: the Kaleido repository, the [SemVer]
    model for the [semver] package, and worlds whose answers are fixed per
    command. *)

Module Demo.

#[export] Instance cfg : Config := {|
  REPO := "plotly/Kaleido";
  GITHUB_WORKSPACE := "/home/runner/work/Kaleido/Kaleido";
  DEFAULT_PLOTLY := "https://cdn.plot.ly/plotly-2.35.2.js";
  FILE_PATH := "/home/runner/work/Kaleido/Kaleido/src/py/kaleido/_page_generator.py"
|}.

Definition dq : string := String (ascii_of_nat 34) EmptyString.
Definition q (s : string) : string := dq ++ s ++ dq.

Definition tag_text (name : string) : string :=
  "{" ++ q "name" ++ ":" ++ q name ++ "}".
Definition tag_value (name : string) : json := JObj [("name", JStr name)].

Definition issue_text (number state : string) : string :=
  "{" ++ q "number" ++ ":" ++ number ++ "," ++ q "state" ++ ":" ++ q state ++ "}".
Definition issue_fields (number : Z) (state : string) : list (string * json) :=
  [("number", JNum number); ("state", JStr state)].

(** The JSON documents of the examples, with their decoded values. *)
Definition documents : list (string * json) :=
  [ ("[" ++ tag_text "v1.2.0" ++ "," ++ tag_text "v1.10.0" ++ "," ++ tag_text "v1.9.9" ++ "]",
     JArr [tag_value "v1.2.0"; tag_value "v1.10.0"; tag_value "v1.9.9"]);
    ("[" ++ tag_text "v2.35.2" ++ "," ++ tag_text "v2.35.1" ++ "]",
     JArr [tag_value "v2.35.2"; tag_value "v2.35.1"]);
    ("[" ++ tag_text "v3.0.0" ++ "," ++ tag_text "v2.35.2" ++ "]",
     JArr [tag_value "v3.0.0"; tag_value "v2.35.2"]);
    ("[" ++ issue_text "41" "CLOSED" ++ "," ++ issue_text "57" "OPEN" ++ "]",
     JArr [JObj (issue_fields 41 "CLOSED"); JObj (issue_fields 57 "OPEN")]);
    ("[" ++ issue_text "41" "CLOSED" ++ "]",
     JArr [JObj (issue_fields 41 "CLOSED")]);
    ("[]", JArr []) ].

(** A decoder that knows these documents and rejects every other text. *)
Fixpoint canned (table : list (string * json)) (text : string) : option json :=
  match table with
  | [] => None
  | (t, v) :: rest => if String.eqb text t then Some v else canned rest text
  end.

#[export] Instance lib : Library := {|
  json_loads := canned documents;
  py_repr := fun _ => "...";
  Version := SemVer.t;
  semver_parse := SemVer.parse;
  semver_compare := SemVer.compare;
  semver_str := SemVer.to_str
|}.

Definition tags_old : string := fst (List.nth 0 documents ("", JNull)).
Definition tags_same : string := fst (List.nth 1 documents ("", JNull)).
Definition tags_new : string := fst (List.nth 2 documents ("", JNull)).
Definition issues_none : string := "[]".

Definition ok (out : string) : CmdResult := mkResult out "" 0.
Definition not_found : CmdResult := mkResult "" "gh: Not Found (HTTP 404)" 1.

(** The answers of a scripted world, one per kind of command; every [git]
    command but [push] succeeds silently. *)
Record Answers : Type := mkAnswers {
  tags : CmdResult;
  branch : CmdResult;
  pr_list : CmdResult;
  push : CmdResult;
  pr_create : CmdResult;
  issue_list : CmdResult;
  issue_create : CmdResult;
  cdn_status : option Z;
  changelog_done : bool
}.

Definition word (n : nat) (cmd : list string) : string := List.nth n cmd "".

Definition answer (a : Answers) (cmd : list string) : CmdResult :=
  if (String.eqb (word 0 cmd) "gh" && String.eqb (word 1 cmd) "api")%bool then
    if String.eqb (word 3 cmd) "--paginate" then tags a else branch a
  else if (String.eqb (word 0 cmd) "gh" && String.eqb (word 1 cmd) "pr")%bool then
    if String.eqb (word 2 cmd) "list" then pr_list a else pr_create a
  else if (String.eqb (word 0 cmd) "gh" && String.eqb (word 1 cmd) "issue")%bool then
    if String.eqb (word 2 cmd) "list" then issue_list a else issue_create a
  else if (String.eqb (word 0 cmd) "git" && String.eqb (word 1 cmd) "push")%bool then
    push a
  else ok "".

Definition scripted (a : Answers) : World :=
  mkWorld (fun _ cmd => answer a cmd)
          (fun _ _ => cdn_status a)
          (fun _ _ _ _ => changelog_done a).

(** Version 3.0.0 is out, its bundle is served, nothing was prepared yet
    and every tool succeeds. *)
Definition fresh_release : Answers := {|
  tags := ok tags_new;
  branch := not_found;
  pr_list := ok "";
  push := mkResult "" "To github.com:plotly/Kaleido" 0;
  pr_create := ok "https://github.com/plotly/Kaleido/pull/99";
  issue_list := ok issues_none;
  issue_create := ok "https://github.com/plotly/Kaleido/issues/58";
  cdn_status := Some 200;
  changelog_done := true
|}.

Definition with_tags (r : CmdResult) (a : Answers) : Answers :=
  mkAnswers r (branch a) (pr_list a) (push a) (pr_create a)
            (issue_list a) (issue_create a) (cdn_status a) (changelog_done a).
Definition with_branch (r : CmdResult) (a : Answers) : Answers :=
  mkAnswers (tags a) r (pr_list a) (push a) (pr_create a)
            (issue_list a) (issue_create a) (cdn_status a) (changelog_done a).
Definition with_push (r : CmdResult) (a : Answers) : Answers :=
  mkAnswers (tags a) (branch a) (pr_list a) r (pr_create a)
            (issue_list a) (issue_create a) (cdn_status a) (changelog_done a).
Definition with_issue_list (r : CmdResult) (a : Answers) : Answers :=
  mkAnswers (tags a) (branch a) (pr_list a) (push a) (pr_create a)
            r (issue_create a) (cdn_status a) (changelog_done a).
Definition with_status (st : option Z) (a : Answers) : Answers :=
  mkAnswers (tags a) (branch a) (pr_list a) (push a) (pr_create a)
            (issue_list a) (issue_create a) st (changelog_done a).
Definition with_changelog (b : bool) (a : Answers) : Answers :=
  mkAnswers (tags a) (branch a) (pr_list a) (push a) (pr_create a)
            (issue_list a) (issue_create a) (cdn_status a) b.
Definition with_pr_list (r : CmdResult) (a : Answers) : Answers :=
  mkAnswers (tags a) (branch a) r (push a) (pr_create a)
            (issue_list a) (issue_create a) (cdn_status a) (changelog_done a).
Definition with_pr_create (r : CmdResult) (a : Answers) : Answers :=
  mkAnswers (tags a) (branch a) (pr_list a) (push a) r
            (issue_list a) (issue_create a) (cdn_status a) (changelog_done a).
Definition with_issue_create (r : CmdResult) (a : Answers) : Answers :=
  mkAnswers (tags a) (branch a) (pr_list a) (push a) (pr_create a)
            (issue_list a) r (cdn_status a) (changelog_done a).

(** A world that answers some commands specially and the others as [a]. *)
Definition overriding (special : list string -> option CmdResult) (a : Answers)
  : World :=
  mkWorld (fun _ cmd => match special cmd with
                        | Some r => r
                        | None => answer a cmd
                        end)
          (fun _ _ => cdn_status a)
          (fun _ _ _ _ => changelog_done a).

(** The text of the page generator module around the constant. *)
Definition page : string :=
  "DEFAULT_PLOTLY = '" ++ DEFAULT_PLOTLY ++ "'  # " ++ DEFAULT_PLOTLY.

(** The worlds of the examples. *)
Definition release_out : World := scripted fresh_release.
Definition old_tags_only : World := scripted (with_tags (ok tags_old) fresh_release).
Definition nothing_new : World := scripted (with_tags (ok tags_same) fresh_release).
Definition changelog_fails : World := scripted (with_changelog false fresh_release).
Definition branch_present : World := scripted (with_branch (ok "") fresh_release).
Definition rejected : CmdResult := mkResult "" "remote: permission denied" 1.
Definition push_rejected : World := scripted (with_push rejected fresh_release).
Definition bundle_missing (issues : string) : World :=
  scripted (with_status (Some 404) (with_issue_list (ok issues) fresh_release)).

(** The HEAD request raises instead of answering. *)
Definition unanswered (issues : string) : World :=
  scripted (with_status None (with_issue_list (ok issues) fresh_release)).

(** Bytes that are not UTF-8. *)
Definition garbled : string :=
  String (ascii_of_nat 255) (String (ascii_of_nat 254) EmptyString).
Definition garbled_404 : CmdResult :=
  mkResult "" ("gh: " ++ garbled ++ " (HTTP 404)") 1.
Definition garbled_lookup : World := scripted (with_branch garbled_404 fresh_release).
Definition garbled_rejection : CmdResult := mkResult "" ("remote: " ++ garbled) 1.
Definition garbled_push : World := scripted (with_push garbled_rejection fresh_release).

(** [git checkout -b] fails; everything else goes well. *)
Definition branch_taken : CmdResult :=
  mkResult "" "fatal: a branch named 'bot/update-cdn-3.0.0' already exists" 128.
Definition failing_checkout (cmd : list string) : option CmdResult :=
  if (String.eqb (word 0 cmd) "git" && String.eqb (word 1 cmd) "checkout")%bool
  then Some branch_taken else None.
Definition checkout_fails : World := overriding failing_checkout fresh_release.

(** Failures that the script does not look at.  On the way to the pull
    request: the tag listing exits with 1, the pull request listing and the
    three git steps before the push exit with a nonzero code and write to
    stderr, and the push and the pull request creation write to stderr. *)
Definition nothing_to_commit : CmdResult :=
  mkResult "nothing to commit, working tree clean" "warning: LF will be replaced" 1.
Definition index_locked : CmdResult :=
  mkResult "" "fatal: Unable to create '.git/index.lock'" 128.
Definition listing_failed : CmdResult := mkResult "" "error connecting to api.github.com" 1.
Definition pr_warned_link : CmdResult :=
  mkResult "https://github.com/plotly/Kaleido/pull/99" "Warning: 1 uncommitted change" 0.

Definition failing_git (cmd : list string) : option CmdResult :=
  if String.eqb (word 0 cmd) "git" then
    if String.eqb (word 1 cmd) "checkout" then Some branch_taken
    else if String.eqb (word 1 cmd) "add" then Some index_locked
    else if String.eqb (word 5 cmd) "commit" then Some nothing_to_commit
    else None
  else None.

Definition quiet_failures : World :=
  overriding failing_git
    (with_tags (mkResult tags_new "" 1)
       (with_pr_list listing_failed
          (with_pr_create pr_warned_link fresh_release))).

(** On the way to the issue: the search exits with 1 and writes to stderr,
    the creation exits with 1. *)
Definition search_warned : CmdResult := mkResult issues_none "warning: rate limit is low" 1.
Definition created_quietly : CmdResult :=
  mkResult "https://github.com/plotly/Kaleido/issues/58" "" 1.
Definition quiet_issue_failures : World :=
  scripted (with_status (Some 404)
              (with_issue_list search_warned
                 (with_issue_create created_quietly fresh_release))).



End Demo.

(** ** More of the setting *)

(** A precedence order that is total: versions of equal precedence stand
    alike to every third one (for [semver], versions that differ in build
    metadata only). *)
Class TotalPrecedence (lib : Library) : Prop := {
  total_is_order : PrecedenceOrder lib;
  compare_eq_compat : forall a b c : Version,
    semver_compare a b = Eq -> semver_compare c a = semver_compare c b
}.

(** The tag listing is the oldest entry of a log and occurs nowhere else. *)
Definition listed_once (l : list Event) : Prop :=
  exists r later,
    l = (later ++ [Run tags_cmd r])%list /\
    forall r', ~ In (Run tags_cmd r') later.

(** More scripted worlds: answers that the tools give less often. *)
Module Cases.
Import Demo.

Definition tied_names : list string := ["v0.9.0"; "v1.0.0+a"; "v1.0.0+b"].
Definition odd_names : list string := ["v1.0.0"; "latest"].

Definition array_of (items : list string) : string :=
  "[" ++ SemVer.join "," items ++ "]".

(** The documents of [Demo] and four more: tags of equal precedence, a tag
    that is no version, the error object of the API, and an issue listed
    without its state. *)
Definition all_documents : list (string * json) :=
  [ (array_of (List.map tag_text tied_names), JArr (List.map tag_value tied_names));
    (array_of (List.map tag_text odd_names), JArr (List.map tag_value odd_names));
    ("{" ++ q "message" ++ ":" ++ q "Bad credentials" ++ "}",
     JObj [("message", JStr "Bad credentials")]);
    ("[{" ++ q "number" ++ ":41}]", JArr [JObj [("number", JNum 41)]]) ]
  ++ Demo.documents.

Definition lib : Library := {|
  json_loads := canned all_documents;
  py_repr := fun _ => "...";
  Version := SemVer.t;
  semver_parse := SemVer.parse;
  semver_compare := SemVer.compare;
  semver_str := SemVer.to_str
|}.

Definition tags_tied : string := fst (List.nth 0 all_documents ("", JNull)).
Definition tags_odd : string := fst (List.nth 1 all_documents ("", JNull)).
Definition error_payload : string := fst (List.nth 2 all_documents ("", JNull)).
Definition issues_stateless : string := fst (List.nth 3 all_documents ("", JNull)).

(** The three git steps before the push fail; everything else goes well. *)
Definition git_fails : World := overriding failing_git fresh_release.

Definition tied_tags : World := scripted (with_tags (ok tags_tied) fresh_release).
Definition warned : CmdResult := mkResult tags_odd "warning: rate limit is low" 0.
Definition odd_tag : World := scripted (with_tags warned fresh_release).
Definition no_answer : World := scripted (with_status None fresh_release).
Definition moved : World := scripted (with_status (Some 301) fresh_release).

(** Links with white space around them: a line feed, and U+00A0 in its
    two bytes. *)
Definition newline : string := String (ascii_of_nat 10) EmptyString.
Definition nbsp : string :=
  String (ascii_of_nat 194) (String (ascii_of_nat 160) EmptyString).
Definition created_silently : CmdResult :=
  mkResult (nbsp ++ "https://github.com/plotly/Kaleido/issues/58" ++ newline) "" 1.
Definition issue_fails_silently : World :=
  scripted (with_issue_create created_silently (with_status (Some 404) fresh_release)).
Definition pr_warned : CmdResult :=
  mkResult ("https://github.com/plotly/Kaleido/pull/99" ++ nbsp ++ newline)
           "Warning: 1 uncommitted change" 0.
Definition pr_warns : World := scripted (with_pr_create pr_warned fresh_release).

Definition tied_versions : list SemVer.t :=
  [SemVer.mk 0 9 0 [] None; SemVer.mk 1 0 0 [] (Some "a");
   SemVer.mk 1 0 0 [] (Some "b")].

(** A page generator module that does not hold the constant. *)
Definition other_page : string := "DEFAULT_PLOTLY = None".

End Cases.

(** * Properties *)

(** ** Strings *)

Lemma startswith_app p s : PyStr.startswith p (p ++ s) = true.
Proof.
  unfold PyStr.startswith.
  induction p as [|c p IH]; cbn.
  - now destruct s.
  - destruct (ascii_dec c c) as [_|N]; [exact IH | now elim N].
Qed.

Lemma startswith_split p s :
  PyStr.startswith p s = true -> s = p ++ PyStr.drop (String.length p) s.
Proof.
  unfold PyStr.startswith. revert s.
  induction p as [|c p IH]; intros s H; cbn.
  - reflexivity.
  - destruct s as [|d s]; cbn in H; [discriminate|].
    destruct (ascii_dec c d) as [->|]; [|discriminate].
    now rewrite <- (IH s H).
Qed.

Lemma contains_app pre sub post :
  PyStr.contains sub (pre ++ sub ++ post) = true.
Proof.
  induction pre as [|c pre IH]; cbn [String.append].
  - destruct (sub ++ post) eqn:E; cbn [PyStr.contains];
      rewrite <- E, startswith_app; reflexivity.
  - cbn [PyStr.contains]. rewrite IH. now destruct (PyStr.startswith _ _).
Qed.

Lemma contains_unfold sub s :
  PyStr.contains sub s =
  if PyStr.startswith sub s then true
  else match s with
       | EmptyString => false
       | String _ s' => PyStr.contains sub s'
       end.
Proof. now destruct s. Qed.

Lemma replace_first_unfold old new s :
  PyStr.replace_first old new s =
  if PyStr.startswith old s then new ++ PyStr.drop (String.length old) s
  else match s with
       | EmptyString => EmptyString
       | String c s' => String c (PyStr.replace_first old new s')
       end.
Proof. now destruct s. Qed.

(** [replace_first] meets the description of [str.replace(old, new, 1)]. *)
Lemma replace_first_spec old new s :
  first_replaced old new s (PyStr.replace_first old new s).
Proof.
  induction s as [|c s IH];
    rewrite replace_first_unfold; unfold first_replaced;
    rewrite (contains_unfold old);
    match goal with |- context [PyStr.startswith old ?x] =>
      destruct (PyStr.startswith old x) eqn:E end.
  - right. exists "", (PyStr.drop (String.length old) "").
    split; [now apply startswith_split|].
    split; [reflexivity|]. intros. apply Nat.le_0_l.
  - now left.
  - right. exists "", (PyStr.drop (String.length old) (String c s)).
    split; [now apply startswith_split|].
    split; [reflexivity|]. intros. apply Nat.le_0_l.
  - destruct IH as [[Hno ->]|(pre & post & Hs & Ht & Hmin)].
    + now left.
    + right. exists (String c pre), post.
      split; [cbn [String.append]; now rewrite <- Hs|].
      split; [cbn [String.append]; now rewrite <- Ht|].
      intros [|d pre'] post' Heq; cbn [String.append] in Heq.
      * rewrite Heq, startswith_app in E. discriminate.
      * injection Heq as _ Heq. cbn [String.length].
        apply le_n_S. eapply Hmin. exact Heq.
Qed.

Lemma append_inj_l p a b : p ++ a = p ++ b -> a = b.
Proof. induction p as [|c p IH]; cbn; [auto|]. intros [= H]. auto. Qed.

Lemma append_length a b :
  String.length (a ++ b) = (String.length a + String.length b)%nat.
Proof. induction a as [|c a IH]; cbn; [reflexivity|]. now rewrite IH. Qed.

Lemma append_assoc a b c : (a ++ b) ++ c = a ++ b ++ c.
Proof. induction a as [|x a IH]; cbn; [reflexivity|]. now rewrite IH. Qed.

Lemma append_inj_r q a b : a ++ q = b ++ q -> a = b.
Proof.
  revert b. induction a as [|c a IH]; intros [|d b] H; cbn in H.
  - reflexivity.
  - apply (f_equal String.length) in H. cbn in H. rewrite append_length in H. lia.
  - apply (f_equal String.length) in H. cbn in H. rewrite append_length in H. lia.
  - injection H as -> H. now rewrite (IH _ H).
Qed.

(** Replacing an occurrence by another text changes the text. *)
Lemma first_replaced_changes old new s t :
  new <> old -> PyStr.contains old s = true ->
  first_replaced old new s t -> t <> s.
Proof.
  intros Hne Hin [[Hno _]|(pre & post & -> & -> & _)]; [congruence|].
  intros H. apply append_inj_l, append_inj_r in H. contradiction.
Qed.

Lemma decode_text b text : PyStr.decode b = Some text -> text = b.
Proof. unfold PyStr.decode. destruct (PyStr.utf8 b); congruence. Qed.

Lemma truthy_false s : PyStr.truthy s = false -> s = "".
Proof. now destruct s. Qed.

Lemma truthy_true s : PyStr.truthy s = true -> s <> "".
Proof. now destruct s. Qed.

(** ** Python's [max] *)

Section MaxOrder.

Context {lib : Library} {ord : PrecedenceOrder lib}.

Lemma compare_refl (a : Version) : semver_compare a a = Eq.
Proof.
  pose proof (compare_antisym a a) as H.
  destruct (semver_compare a a); cbn in H; congruence.
Qed.


Lemma gt_trans (a b c : Version) :
  gt a b = true -> gt b c = true -> gt a c = true.
Proof.
  unfold gt. intros H1 H2.
  destruct (semver_compare a b) eqn:E1; try discriminate.
  destruct (semver_compare b c) eqn:E2; try discriminate.
  now rewrite (compare_trans _ _ _ E1 E2).
Qed.



End MaxOrder.

(** ** Running the script symbolically *)

Section Steps.

Context {cfg : Config} {lib : Library}.
Variable w : World.

(** How [get_latest_version] can end: with the version after a silent tag
    listing, with an exception (the output does not decode, or it lists no
    version at all), or with exit code 1 after printing what the listing
    wrote to stderr. *)
Lemma get_latest_version_cases s o s1 :
  get_latest_version w s = (o, s1) ->
  let r := exec w (log s) tags_cmd in
  ((exists v, o = Return v) /\ stderr r = "" /\ s1 = record (Run tags_cmd r) s) \/
  ((exists e, o = Raise e) /\
   (lists_versions r ->
    stderr r = "" \/
    (stderr r <> "" /\ PyStr.decode (stderr r) = None /\ o = Raise "UnicodeDecodeError")) /\
   s1 = record (Run tags_cmd r) s) \/
  (o = Exit 1 /\ (stderr r <> "" /\ PyStr.decode (stderr r) = Some (stderr r)) /\
   s1 = record (Print Out (stderr r)) (record (Run tags_cmd r) s)).
Proof.
  unfold get_latest_version, bind, run, raise, ret, print, sys_exit, decode,
    lists_versions.
  cbv zeta.
  destruct (json_loads _) as [doc|] eqn:Hdoc.
  2: { intros [= <- <-]. right; left. repeat split; eauto.
       intros (d & t & vs & H1 & _). congruence. }
  destruct (Jq.tag_names doc) as [tags|] eqn:Htags.
  2: { intros [= <- <-]. right; left. repeat split; eauto.
       intros (d & t & vs & H1 & H2 & _). congruence. }
  destruct (parse_tags tags) as [e|versions] eqn:Hparse.
  1: { intros [= <- <-]. right; left. repeat split; eauto.
       intros (d & t & vs & H1 & H2 & H3). congruence. }
  destruct (stderr _) eqn:E; cbn [PyStr.truthy].
  - destruct (py_max _ _); intros [= <- <-]; [left|right; left]; eauto.
  - destruct (PyStr.decode _) as [text|] eqn:D.
    + pose proof (decode_text _ _ D) as Ht. subst text.
      intros [= <- <-]. right; right. split; [reflexivity|].
      split; [split; [discriminate|reflexivity]|reflexivity].
    + intros [= <- <-]. right; left. split; [eauto|]. split; [|reflexivity].
      intros _. right. split; [discriminate|]. split; reflexivity.
Qed.

Lemma get_latest_version_inv s v s1 :
  get_latest_version w s = (Return v, s1) ->
  s1 = record (Run tags_cmd (exec w (log s) tags_cmd)) s /\
  stderr (exec w (log s) tags_cmd) = "".
Proof.
  intros H. apply get_latest_version_cases in H.
  destruct H as [(_ & E & ->)|[([e [=]] & _)|([=] & _)]]. auto.
Qed.

(** The loop over the issues prints and nothing else; it returns without
    having printed, and never exits with a code other than 1. *)
Lemma scan_issues_log title l s o s' :
  scan_issues title l s = (o, s') ->
  page_source s' = page_source s /\
  exists extra, log s' = (extra ++ log s)%list /\
    Forall (fun e => is_print e = true) extra /\
    (forall a, o = Return a -> extra = []) /\
    (forall c, o = Exit c -> c = 1).
Proof.
  revert s. induction l as [|i l IH]; intros s; cbn [scan_issues].
  - intros [= <- <-]. split; auto. exists []. repeat split; auto; discriminate.
  - destruct i;
      try (intros [= <- <-]; split; auto; exists []; repeat split; auto; discriminate).
    destruct (is_open fields).
    + unfold bind, print, sys_exit. intros [= <- <-]. split; auto.
      eexists [_; _]. cbn. split; auto.
      split; [repeat constructor|]. split; [discriminate|congruence].
    + apply IH.
Qed.

(** On a list of objects the loop stops at the first open issue. *)
Lemma scan_issues_objects title issues s :
  scan_issues title (List.map JObj issues) s =
  match List.find is_open issues with
  | Some issue =>
      (Exit 1,
       record (Print Out (issue_url issue))
         (record (Print Out ("Issue '" ++ title ++ "' already exists in:")) s))
  | None => (Return tt, s)
  end.
Proof.
  induction issues as [|i l IH]; cbn [List.map scan_issues List.find].
  - reflexivity.
  - destruct (is_open i); [reflexivity | exact IH].
Qed.



Lemma not_in_prints e extra :
  is_print e = false ->
  Forall (fun e => is_print e = true) extra -> ~ In e extra.
Proof.
  intros N F I. rewrite Forall_forall in F. apply F in I. congruence.
Qed.

Lemma filter_prints f extra :
  (forall to text, f (Print to text) = false) ->
  Forall (fun e => is_print e = true) extra -> List.filter f extra = [].
Proof.
  intros Hf. induction 1 as [|e l He _ IH]; [reflexivity|].
  destruct e; try discriminate. cbn. now rewrite Hf.
Qed.

End Steps.

(** One step of symbolic execution: the answers of the world that are next
    become variables, then the innermost test is decided both ways. *)
Ltac answers w :=
  repeat match goal with
  | |- context [exec w ?h ?c] =>
      lazymatch h with
      | context [w] => fail
      | _ => let r := fresh "r" in generalize (exec w h c); intro r
      end
  | |- context [head w ?h ?c] =>
      lazymatch h with
      | context [w] => fail
      | _ => let r := fresh "status" in generalize (head w h c); intro r
      end
  | |- context [changelog_update w ?h ?a ?b ?c] =>
      lazymatch h with
      | context [w] => fail
      | _ => let r := fresh "done" in generalize (changelog_update w h a b c); intro r
      end
  end.

Ltac step :=
  match goal with
  | |- context [match ?x with _ => _ end] =>
      lazymatch x with
      | context [match _ with _ => _ end] => fail
      | _ => destruct x eqn:?
      end
  end.

Ltac unfold_script :=
  unfold verify_url, read_text, write_text, create_pr, verify_issue,
    create_issue, decode, bind, run, print, changelog, sys_exit, ret, record,
    raise.

(** What was decoded is what was written: the texts become the bytes. *)
Ltac texts :=
  repeat match goal with
  | H : PyStr.decode ?b = Some ?t |- _ =>
      is_var t; pose proof (decode_text _ _ H); subst t
  end.

Ltac execute w :=
  unfold_script; cbn [log page_source start];
  repeat (cbn [log page_source]; answers w; step);
  cbn [log page_source]; answers w; texts.

(** What the tests decided, as equations and disequations. *)
Ltac facts :=
  repeat match goal with
  | H : negb _ = true |- _ => apply negb_true_iff in H
  | H : negb _ = false |- _ => apply negb_false_iff in H
  | H : Z.eqb _ _ = true |- _ => apply Z.eqb_eq in H
  | H : Z.eqb _ _ = false |- _ => apply Z.eqb_neq in H
  | H : String.eqb _ _ = true |- _ => apply String.eqb_eq in H
  | H : String.eqb _ _ = false |- _ => apply String.eqb_neq in H
  | H : PyStr.truthy _ = false |- _ => apply truthy_false in H
  | H : PyStr.truthy _ = true |- _ => apply truthy_true in H
  end.

(** Where in a log an event is: the hypothesis [H : In e l] splits into one
    case per entry that can be [e]. *)
Ltac unfold_cmds :=
  unfold tags_cmd, branch_cmd, pr_list_cmd, checkout_cmd, add_cmd, commit_cmd,
    push_cmd, pr_create_cmd, issue_list_cmd, issue_create_cmd in *.

Ltac locate H :=
  repeat first
    [ apply in_app_or in H; destruct H as [H|H];
      [ solve [ exfalso; revert H; apply not_in_prints; [reflexivity | assumption] ] | ]
    | destruct H as [H|H];
      [ first [ discriminate H
              | solve [ exfalso; unfold_cmds; congruence ]
              | injection H as H; repeat subst
              | idtac ]
      | ]
    | solve [ destruct H ] ].

Ltac settle_scan :=
  try match goal with
  | H : scan_issues _ _ _ = _ |- _ =>
      apply scan_issues_log in H; cbn [log page_source] in H;
      let extra := fresh "extra" in
      let Hlog := fresh "Hlog" in
      let Hprints := fresh "Hprints" in
      let Hret := fresh "Hret" in
      let Hexit := fresh "Hexit" in
      destruct H as (_ & extra & Hlog & Hprints & Hret & Hexit)
  end.

(** The run after a tag listing that resolved: every way [main] can go on,
    with the answers of the world as variables. *)
Ltac run_main w Hv Hrun :=
  destruct (get_latest_version_inv _ _ _ _ Hv) as [-> _]; revert Hrun;
  unfold run_script, main, bind; rewrite Hv; clear Hv;
  execute w; intros [= <- <-]; cbn [log page_source].

(** The branch of the run that searched the issues: [Hi] places the search in
    the log, [Hdoc] says what it listed. *)
Ltac issue_path Hi Hdoc :=
  try match goal with
      | H : scan_issues _ _ _ = _ |- _ =>
          let Hs := fresh "Hs" in
          let extra := fresh "extra" in
          let Hlog := fresh "Hlog" in
          let Hprints := fresh "Hprints" in
          pose proof (scan_issues_log _ _ _ _ _ H) as Hs;
          cbn [log page_source] in Hs;
          destruct Hs as (_ & extra & Hlog & Hprints & _);
          rewrite Hlog in Hi; clear Hlog
      end;
  cbn [In] in Hi; locate Hi; texts;
  try solve [exfalso; congruence];
  match type of Hdoc with
  | json_loads ?x = _ =>
      match goal with
      | H : json_loads x = _ |- _ =>
          tryif constr_eq H Hdoc then fail else rewrite H in Hdoc
      end
  end;
  injection Hdoc as Hdoc; subst.

(** The events of a log that came after the file was written. *)
Ltac after_write :=
  lazymatch goal with
  | |- exists later, ?l = (later ++ _)%list /\ _ =>
      let rec go pre l :=
        lazymatch l with
        | WriteText _ _ :: _ => let p := eval cbn [List.app] in pre in exists p
        | ?x :: ?l' => go (pre ++ [x])%list l'
        end in
      go (@nil Event) l
  end.

(** ** The runs of the script *)

Section Runs.

Context {cfg : Config} {lib : Library}.
Variable w : World.

Lemma ltrimstr_v name :
  Jq.ltrimstr "v" (JStr name) = Some (JStr (strip_v name)).
Proof.
  unfold Jq.ltrimstr, strip_v. now destruct (PyStr.startswith "v" name).
Qed.

Lemma tag_names_of items names :
  Forall2 (fun item name => Jq.field "name" item = Some (JStr name)) items names ->
  Jq.tag_names (JArr items) = Some (List.map (fun n => JStr (strip_v n)) names).
Proof.
  unfold Jq.tag_names. cbn [Jq.iterate].
  induction 1 as [|item name items names Hi _ IH]; cbn [Jq.map_opt List.map].
  - reflexivity.
  - now rewrite Hi, ltrimstr_v, IH.
Qed.

Lemma parse_tags_of names versions :
  Forall2 (fun name v => semver_parse (strip_v name) = Some v) names versions ->
  parse_tags (List.map (fun n => JStr (strip_v n)) names) = inr versions.
Proof.
  induction 1 as [|name v names versions Hp _ IH]; cbn [parse_tags List.map].
  - reflexivity.
  - unfold parse_tag. now rewrite Hp, IH.
Qed.


(** C2: when the URL built from the resolved version equals
    [DEFAULT_PLOTLY], the run exits with code 0 after the tag listing and
    one message: no file is written, and no git, pull request, issue or
    changelog operation happens. *)
Theorem up_to_date_run_does_nothing (source v : string)
    (o : Outcome unit) (st : State) :
  resolves w source v ->
  cdn_url v = DEFAULT_PLOTLY ->
  run_script w source = (o, st) ->
  o = Exit 0 /\ exit_code o = 0 /\
  page_source st = source /\
  count is_write (log st) = 0%nat /\
  count is_git (log st) = 0%nat /\
  count is_pr_op (log st) = 0%nat /\
  count is_issue_op (log st) = 0%nat /\
  count is_changelog (log st) = 0%nat /\
  exists r, log st = [Print Out "Already up to date"; Run tags_cmd r].
Proof.
  intros [s1 Hv] Hurl Hrun.
  destruct (get_latest_version_inv _ _ _ _ Hv) as [-> _]. revert Hrun.
  unfold run_script, main, bind. rewrite Hv, Hurl, String.eqb_refl.
  unfold_script. cbn [log page_source start].
  intros [= <- <-]. cbn [log page_source].
  repeat split; eauto.
Qed.

(** C3, as amended: when the new URL is reachable and neither the branch nor
    a pull request for the version exists, the page generator file is
    written exactly once, with the first occurrence of the old URL replaced
    by the new one.  When moreover the changelog update succeeds and
    [git checkout -b] exits with 0, the branch bot/update-cdn-<version> is
    created; when [git push] exits with 0, exactly one pull request is
    created. *)
Theorem new_release_is_published (source v : string)
    (o : Outcome unit) (st : State) :
  resolves w source v ->
  run_script w source = (o, st) ->
  reachable (log st) (cdn_url v) ->
  branch_missing (log st) (branch_of v) ->
  pr_missing (log st) (branch_of v) ->
  edited_once (log st) source v /\
  (changelog_ok (log st) v -> checkout_ok (log st) ->
     branch_created (log st) v) /\
  (pushed (log st) (branch_of v) -> one_pr_created (log st) v).
Proof.
  intros [s1 Hv] Hrun. run_main w Hv Hrun; settle_scan; try rewrite Hlog.
  all: intros Hreach (rb & msg & Hb & Hbrc & Hbd & Hb404) (rp & Hp & Hpout).
  all: cbn [In] in Hb; locate Hb.
  all: cbn [In] in Hp; locate Hp.
  all: facts; try solve [exfalso; congruence].
  all: split; [eexists; split; [reflexivity | apply replace_first_spec]|].
  all: split.
  all: try (intros Hcl Hco; unfold changelog_ok in Hcl; cbn [In] in Hcl; locate Hcl;
            try solve [exfalso; congruence];
            eexists;
            (split;
              [ cbn [In]; solve [repeat (first [left; reflexivity | right])]
              | unfold checkout_ok in Hco; eapply Hco; cbn [In];
                solve [repeat (first [left; reflexivity | right])] ])).
  all: intros (rq & Hq & Hqrc); cbn [In] in Hq; locate Hq; facts.
  all: try solve [exfalso; congruence].
  all: eexists; reflexivity.
Qed.

(** C4: when the branch lookup finds the branch, or the pull request
    listing for it is not empty, the run ends with exit code 1 without
    having run a git command or created a pull request.  It ends by
    [sys.exit(1)], except that a listing which does not decode raises
    [UnicodeDecodeError]. *)
Theorem duplicate_stops_before_git (source v : string)
    (o : Outcome unit) (st : State) :
  resolves w source v ->
  run_script w source = (o, st) ->
  branch_found (log st) (branch_of v) \/ pr_found (log st) (branch_of v) ->
  (o = Exit 1 \/
   (o = Raise "UnicodeDecodeError" /\
    exists r, In (Run (pr_list_cmd (branch_of v)) r) (log st) /\
              PyStr.decode (stdout r) = None)) /\
  exit_code o = 1 /\
  count is_git (log st) = 0%nat /\
  count is_pr_create (log st) = 0%nat.
Proof.
  intros [s1 Hv] Hrun. run_main w Hv Hrun; settle_scan; try rewrite Hlog.
  all: intros [(r' & Hin & Hr)|(r' & Hin & Hr)].
  all: cbn [In] in Hin; locate Hin; facts.
  all: try solve [split; [left; reflexivity | repeat split; reflexivity]].
  all: try solve [split; [right; split; [reflexivity|]; eexists;
                          split; [left; reflexivity | assumption]
                         | repeat split; reflexivity]].
  all: exfalso; congruence.
Qed.

Lemma is_open_state issue : is_open issue = true -> state_is "OPEN" issue.
Proof.
  unfold is_open, state_is.
  destruct (Json.lookup "state" issue) as [[]|]; try discriminate.
  now intros ->%String.eqb_eq.
Qed.



Lemma map_JObj_inj a b : List.map JObj a = List.map JObj b -> a = b.
Proof.
  revert b. induction a as [|x a IH]; intros [|y b]; cbn; try discriminate; auto.
  intros [= -> H]. now rewrite (IH _ H).
Qed.



Lemma issue_body_text v :
  issue_body (cdn_url v) =
  "URL: https://cdn.plot.ly/plotly-" ++ v ++ ".js - invalid url".
Proof.
  unfold issue_body, cdn_url. cbn [String.append].
  now rewrite append_assoc.
Qed.

(** C8, as amended: when the HEAD request for the new URL is answered with a
    status other than 200 and the search for the title lists nothing, the
    run makes exactly one issue creation call; its title is
    "CDN not reachable for Plotly.js v<version>" and its body contains the
    URL. *)
Theorem missing_issue_is_created (source v : string)
    (o : Outcome unit) (st : State) :
  resolves w source v ->
  run_script w source = (o, st) ->
  unreachable (log st) (cdn_url v) ->
  issues_listed (log st) ("CDN not reachable for Plotly.js v" ++ v) [] ->
  exists body r,
    List.filter is_issue_create (log st) =
      [Run ["gh"; "issue"; "create"; "-R"; REPO;
            "-t"; "CDN not reachable for Plotly.js v" ++ v; "-b"; body] r] /\
    count is_issue_create (log st) = 1%nat /\
    body = "URL: https://cdn.plot.ly/plotly-" ++ v ++ ".js - invalid url" /\
    PyStr.contains ("https://cdn.plot.ly/plotly-" ++ v ++ ".js") body = true.
Proof.
  change ("CDN not reachable for Plotly.js v" ++ v) with (issue_title v).
  intros [s1 Hv] Hrun. run_main w Hv Hrun.
  all: intros _ (ri & answer & Hi & Hdec & Hdoc).
  all: issue_path Hi Hdoc.
  all: try discriminate.
  all: exists (issue_body (cdn_url v)); eexists.
  all: split; [reflexivity|].
  all: split; [reflexivity|].
  all: split; [apply issue_body_text|].
  all: apply (contains_app "URL: ").
Qed.

(** C5, as amended: a run ends with exit code 1 when the tag listing writes
    to stderr next to an output that decodes to a list of versions, when
    the issue creation writes to stderr, when [git push] or the pull request
    creation exits with a nonzero code, or when the branch lookup exits
    with a nonzero code and its stderr does not say "HTTP 404".  The run
    prints the stderr of the command and calls [sys.exit(1)] when the stderr
    decodes, and raises [UnicodeDecodeError] when it does not. *)
Theorem checked_failure_is_fatal (source : string)
    (o : Outcome unit) (st : State) (cmd : list string) (r : CmdResult) :
  run_script w source = (o, st) ->
  In (Run cmd r) (log st) ->
  checked_failure cmd r ->
  exit_code o = 1 /\
  (PyStr.decode (stderr r) = None -> o = Raise "UnicodeDecodeError") /\
  (forall text, PyStr.decode (stderr r) = Some text ->
     o = Exit 1 /\ printed (log st) text).
Proof.
  unfold run_script, main, bind.
  destruct (get_latest_version w (start source)) as [o1 s1] eqn:Hv.
  pose proof (get_latest_version_cases _ _ _ _ Hv) as Hc. cbv zeta in Hc.
  unfold start in Hc. cbn [log] in Hc. revert Hc. clear Hv.
  generalize (exec w [] tags_cmd). intros r0 Hc.
  destruct Hc as [([v ->] & E & ->)|[([e ->] & E & ->)|(-> & [E D] & ->)]].
  - revert E. execute w. all: intros E [= <- <-]; cbn [log page_source].
    all: settle_scan; try rewrite Hlog.
    all: intros Hi Hf; cbn [In] in Hi; locate Hi.
    all: unfold checked_failure in Hf;
      destruct Hf as [(Hc & Hf & _)|[(b1 & Hc & Hf & Hg)|[(b2 & Hc & Hf)|
                     [(b3 & t3 & body3 & Hc & Hf)|(t4 & body4 & Hc & Hf)]]]].
    all: try solve [exfalso; unfold_cmds; congruence].
    all: facts; try solve [exfalso; congruence].
    all: try solve [exfalso;
                    match goal with
                    | G : forall msg, PyStr.decode ?b = Some msg -> _,
                      D : PyStr.decode ?b = Some _ |- _ =>
                        specialize (G _ D); congruence
                    end].
    all: split; [reflexivity|]; split.
    all: try solve [intros; exfalso; congruence].
    all: try solve [intros; reflexivity].
    all: intros text Ht; pose proof (decode_text _ _ Ht); subst text.
    all: try solve [exfalso; congruence].
    all: split; [reflexivity|]; unfold printed; eexists; cbn [In]; eauto.
  - intros [= <- <-]. unfold record. cbn [log].
    intros Hi Hf; cbn [In] in Hi; locate Hi.
    destruct Hf as [(_ & Hf & Hd)|[(b1 & Hc & _)|[(b2 & Hc & _)|
                   [(b3 & t3 & body3 & Hc & _)|(t4 & body4 & Hc & _)]]]];
      [ | exfalso; unfold_cmds; congruence ..].
    destruct (E Hd) as [E0|(_ & E1 & [= ->])]; [contradiction|].
    split; [reflexivity|]. split; [reflexivity|]. intros text Ht. congruence.
  - intros [= <- <-]. unfold record. cbn [log].
    intros Hi Hf; cbn [In] in Hi; locate Hi.
    split; [reflexivity|]. split; [intros N; congruence|].
    intros text Ht. pose proof (decode_text _ _ Ht); subst text.
    split; [reflexivity|]. exists Out. now left.
Qed.

(** C9, as amended: a run that looks the branch up goes on by the answer
    alone.  Exit code 0: the branch exists, the run says so and exits with
    code 1.  Nonzero exit code and a stderr that decodes to text with
    "HTTP 404" in it: the branch is absent and the run proceeds to the pull
    request listing.  Nonzero exit code and any other stderr text: the run
    prints it and exits with code 1.  Nonzero exit code and a stderr that
    does not decode: the run raises [UnicodeDecodeError] and prints
    nothing. *)
Theorem branch_lookup_is_classified (source v : string)
    (o : Outcome unit) (st : State) (r : CmdResult) :
  resolves w source v ->
  run_script w source = (o, st) ->
  In (Run ["gh"; "api"; "repos/" ++ REPO ++ "/branches/bot/update-cdn-" ++ v;
           "--silent"] r) (log st) ->
  (returncode r = 0 ->
     o = Exit 1 /\
     In (Print Err ("The branch bot/update-cdn-" ++ v ++ " already exists")) (log st) /\
     count is_pr_op (log st) = 0%nat /\ count is_git (log st) = 0%nat) /\
  (returncode r <> 0 ->
     forall msg, PyStr.decode (stderr r) = Some msg ->
     PyStr.contains "HTTP 404" msg = true ->
     exists rp,
       In (Run ["gh"; "pr"; "list"; "-R"; REPO; "-H"; "bot/update-cdn-" ++ v;
                "--state"; "all"] rp) (log st)) /\
  (returncode r <> 0 ->
     forall msg, PyStr.decode (stderr r) = Some msg ->
     PyStr.contains "HTTP 404" msg = false ->
     o = Exit 1 /\
     In (Print Err msg) (log st) /\
     count is_pr_op (log st) = 0%nat /\ count is_git (log st) = 0%nat) /\
  (returncode r <> 0 -> PyStr.decode (stderr r) = None ->
     o = Raise "UnicodeDecodeError" /\
     count is_print (log st) = 0%nat /\
     count is_pr_op (log st) = 0%nat /\ count is_git (log st) = 0%nat).
Proof.
  change ["gh"; "api"; "repos/" ++ REPO ++ "/branches/bot/update-cdn-" ++ v;
          "--silent"] with (branch_cmd (branch_of v)).
  intros [s1 Hv] Hrun. run_main w Hv Hrun; settle_scan; try rewrite Hlog.
  all: intros Hi; cbn [In] in Hi; locate Hi; facts.
  all: split; [intros H0|split; [intros H1 msg Hd H2|split; [intros H1 msg Hd H2|intros H1 Hd]]].
  all: try (pose proof (decode_text _ _ Hd); subst msg).
  all: try solve [exfalso; congruence].
  all: try solve [eexists; cbn [In]; solve [repeat (first [left; reflexivity | right])]].
  all: repeat split; cbn [In]; auto.
Qed.

(** C10: when the new URL is reachable, the page generator file is read and
    rewritten right after the HEAD request, with the first occurrence of the
    old URL replaced by the new one (a file that holds the old URL is
    changed by this); the branch lookup and everything after it come later.
    A run that then ends with exit code 1 because the branch or a pull
    request exists leaves the file rewritten. *)
Theorem file_is_rewritten_before_duplicate_checks (source v : string)
    (o : Outcome unit) (st : State) :
  resolves w source v ->
  run_script w source = (o, st) ->
  reachable (log st) (cdn_url v) ->
  let url := "https://cdn.plot.ly/plotly-" ++ v ++ ".js" in
  exists rewritten,
    first_replaced DEFAULT_PLOTLY url source rewritten /\
    (PyStr.contains DEFAULT_PLOTLY source = true -> rewritten <> source) /\
    page_source st = rewritten /\
    (exists r0 later,
        log st = (later ++ [WriteText FILE_PATH rewritten; ReadText FILE_PATH source;
                            Head url (Some 200); Run tags_cmd r0])%list /\
        exists rb, In (Run (branch_cmd (branch_of v)) rb) later) /\
    (branch_found (log st) (branch_of v) \/ pr_found (log st) (branch_of v) ->
       exit_code o = 1 /\ page_source st = rewritten /\
       In (WriteText FILE_PATH rewritten) (log st)).
Proof.
  intros [s1 Hv] Hrun. run_main w Hv Hrun; settle_scan; try rewrite Hlog.
  all: unfold reachable; intros Hi; cbn [In] in Hi; locate Hi; facts.
  all: try solve [exfalso; congruence].
  all: cbv zeta; exists (PyStr.replace_first DEFAULT_PLOTLY (cdn_url v) source).
  all: split; [apply replace_first_spec|].
  all: split; [intros Hin;
               apply (first_replaced_changes DEFAULT_PLOTLY (cdn_url v) source);
               [assumption | exact Hin | apply replace_first_spec]|].
  all: split; [reflexivity|]; split.
  all: try (eexists; after_write; split; [reflexivity|]; eexists; cbn [In];
            solve [repeat (first [left; reflexivity | right])]).
  all: intros [(r' & Hin & Hr)|(r' & Hin & Hr)]; cbn [In] in Hin; locate Hin; facts.
  all: try solve [exfalso; congruence].
  all: repeat split; cbn [In]; auto 12.
Qed.

End Runs.

(** ** The [SemVer] model is a precedence order *)

Module SemVerOrder.
Import SemVer.

Lemma lex_opp c d : lex (CompOpp c) (CompOpp d) = CompOpp (lex c d).
Proof. now destruct c. Qed.

(** Lexicographic comparison keeps "greater than" transitive when the first
    component identifies equal values. *)
Lemma lex_trans {A} (cmp : A -> A -> comparison) :
  (forall a, cmp a a = Eq) ->
  (forall a b, cmp a b = Eq -> a = b) ->
  (forall a b c, cmp a b = Gt -> cmp b c = Gt -> cmp a c = Gt) ->
  forall x y z d1 d2 d3,
    (d1 = Gt -> d2 = Gt -> d3 = Gt) ->
    lex (cmp x y) d1 = Gt -> lex (cmp y z) d2 = Gt -> lex (cmp x z) d3 = Gt.
Proof.
  intros Hrefl Heq Htr x y z d1 d2 d3 Hd.
  destruct (cmp x y) eqn:E1; cbn [lex]; try discriminate.
  - apply Heq in E1. subst y.
    destruct (cmp x z) eqn:E2; cbn [lex]; auto.
  - destruct (cmp y z) eqn:E2; cbn [lex]; try discriminate.
    + apply Heq in E2. subst z. now rewrite E1.
    + now rewrite (Htr _ _ _ E1 E2).
Qed.

Lemma N_trans a b c :
  N.compare a b = Gt -> N.compare b c = Gt -> N.compare a c = Gt.
Proof. rewrite !N.compare_gt_iff. intros. now apply N.lt_trans with b. Qed.

Lemma N_eq a b : N.compare a b = Eq -> a = b.
Proof. apply N.compare_eq_iff. Qed.

Lemma string_refl a : String.compare a a = Eq.
Proof.
  pose proof (String.compare_antisym a a) as H.
  destruct (String.compare a a); cbn in H; congruence.
Qed.

Lemma string_eq a b : String.compare a b = Eq -> a = b.
Proof. apply String.compare_eq_iff. Qed.

Lemma ascii_trans a b c :
  Ascii.compare a b = Gt -> Ascii.compare b c = Gt -> Ascii.compare a c = Gt.
Proof. unfold Ascii.compare. apply N_trans. Qed.

Lemma ascii_refl a : Ascii.compare a a = Eq.
Proof. unfold Ascii.compare. apply N.compare_refl. Qed.

Lemma string_compare_cons x a y b :
  String.compare (String x a) (String y b) =
  lex (Ascii.compare x y) (String.compare a b).
Proof. cbn [String.compare]. now destruct (Ascii.compare x y). Qed.

Lemma string_trans a b c :
  String.compare a b = Gt -> String.compare b c = Gt -> String.compare a c = Gt.
Proof.
  revert b c. induction a as [|x a IH]; intros [|y b] [|z c];
    try (cbn [String.compare]; (discriminate || auto); fail).
  rewrite !string_compare_cons.
  apply (lex_trans Ascii.compare ascii_refl Ascii.compare_eq_iff ascii_trans).
  apply IH.
Qed.

Lemma ident_antisym a b : compare_ident b a = CompOpp (compare_ident a b).
Proof.
  destruct a, b; cbn; auto using N.compare_antisym, String.compare_antisym.
Qed.

Lemma ident_refl a : compare_ident a a = Eq.
Proof. destruct a; cbn; auto using N.compare_refl, string_refl. Qed.

Lemma ident_eq a b : compare_ident a b = Eq -> a = b.
Proof.
  destruct a, b; cbn; try discriminate.
  - now intros ->%N.compare_eq_iff.
  - now intros ->%string_eq.
Qed.

Lemma ident_trans a b c :
  compare_ident a b = Gt -> compare_ident b c = Gt -> compare_ident a c = Gt.
Proof.
  destruct a, b, c; cbn; try discriminate; auto.
  - apply N_trans.
  - apply string_trans.
Qed.

Lemma idents_antisym a b : compare_idents b a = CompOpp (compare_idents a b).
Proof.
  revert b. induction a as [|x a IH]; intros [|y b]; cbn; auto.
  now rewrite (ident_antisym x y), IH, lex_opp.
Qed.

Lemma idents_trans a b c :
  compare_idents a b = Gt -> compare_idents b c = Gt -> compare_idents a c = Gt.
Proof.
  revert b c. induction a as [|x a IH]; intros [|y b] [|z c]; cbn;
    try discriminate; auto.
  apply (lex_trans compare_ident ident_refl ident_eq ident_trans).
  apply IH.
Qed.

Lemma prerelease_antisym a b :
  compare_prerelease b a = CompOpp (compare_prerelease a b).
Proof.
  destruct a as [|x a], b as [|y b]; cbn [compare_prerelease CompOpp]; auto.
  apply idents_antisym.
Qed.

Lemma prerelease_trans a b c :
  compare_prerelease a b = Gt -> compare_prerelease b c = Gt ->
  compare_prerelease a c = Gt.
Proof.
  destruct a as [|x a], b as [|y b], c as [|z c]; cbn [compare_prerelease];
    try discriminate; auto.
  apply idents_trans.
Qed.

Lemma compare_is_antisymmetric a b : compare b a = CompOpp (compare a b).
Proof.
  unfold compare.
  rewrite (N.compare_antisym (major a)), (N.compare_antisym (minor a)),
    (N.compare_antisym (patch a)), (prerelease_antisym (prerelease a)).
  now rewrite !lex_opp.
Qed.

Lemma compare_is_transitive a b c : compare a b = Gt -> compare b c = Gt -> compare a c = Gt.
Proof.
  unfold compare.
  do 3 apply (lex_trans N.compare N.compare_refl N_eq N_trans).
  apply prerelease_trans.
Qed.

End SemVerOrder.


(** ** The script on examples *)

Module Examples.
Import Demo.

(** The example of the specification: tags v1.2.0, v1.10.0 and v1.9.9
    resolve to 1.10.0. *)
Example three_tags_resolve :
  fst (get_latest_version old_tags_only (start page)) = Return "1.10.0".
Proof. reflexivity. Qed.

Example prerelease_ranks_below_release :
  option_map (fun v => SemVer.compare v (SemVer.mk 3 0 0 [] None))
    (SemVer.parse "3.0.0-rc.1") = Some Lt.
Proof. reflexivity. Qed.

Example numeric_identifiers_compare_as_numbers :
  SemVer.compare_idents [SemVer.Alnum "rc"; SemVer.Numeric 10]
                        [SemVer.Alnum "rc"; SemVer.Numeric 9] = Gt.
Proof. reflexivity. Qed.

Example build_metadata_is_kept_and_ignored :
  option_map SemVer.to_str (SemVer.parse "1.0.0+a-b") = Some "1.0.0+a-b" /\
  option_map (SemVer.compare (SemVer.mk 1 0 0 [] None)) (SemVer.parse "1.0.0+a-b")
    = Some Eq.
Proof. split; reflexivity. Qed.

Example leading_zero_is_rejected : SemVer.parse "01.2.3" = None.
Proof. reflexivity. Qed.

Example only_first_occurrence_is_replaced :
  page_source (snd (run_script release_out page)) =
  "DEFAULT_PLOTLY = 'https://cdn.plot.ly/plotly-3.0.0.js'  # " ++ DEFAULT_PLOTLY.
Proof. reflexivity. Qed.

Example release_out_run_returns :
  fst (run_script release_out page) = Return tt /\
  exit_code (fst (run_script release_out page)) = 0.
Proof. split; reflexivity. Qed.

Ltac found := vm_compute; repeat (first [left; reflexivity | right]).

Lemma resolves_3_0_0 (w : World) :
  fst (get_latest_version w (start page)) = Return "3.0.0" ->
  resolves w page "3.0.0".
Proof.
  intros H. exists (snd (get_latest_version w (start page))).
  rewrite <- H. apply surjective_pairing.
Defined.


Lemma nothing_new_run :
  let run := run_script nothing_new page in
  resolves nothing_new page "2.35.2" /\
  fst run = Exit 0 /\
  page_source (snd run) = page /\
  count is_write (log (snd run)) = 0%nat /\
  count is_git (log (snd run)) = 0%nat /\
  count is_pr_op (log (snd run)) = 0%nat /\
  count is_issue_op (log (snd run)) = 0%nat.
Proof.
  intros run.
  assert (R : resolves nothing_new page "2.35.2").
  { exists (snd (get_latest_version nothing_new (start page))). reflexivity. }
  split; [exact R|].
  destruct (@up_to_date_run_does_nothing Demo.cfg Demo.lib nothing_new page "2.35.2"
              (fst run) (snd run) R eq_refl (surjective_pairing run))
    as (H1 & _ & H3 & H4 & H5 & H6 & H7 & _).
  repeat split; assumption.
Defined.

(** What a finished example run holds: [H] goes through the entries of the
    log one by one. *)
Ltac entries H :=
  vm_compute in H;
  repeat (destruct H as [H|H]; [try discriminate H|]);
  try contradiction.

Lemma release_out_run_publishes :
  let run := run_script release_out page in
  reachable (log (snd run)) "https://cdn.plot.ly/plotly-3.0.0.js" /\
  branch_missing (log (snd run)) "bot/update-cdn-3.0.0" /\
  pr_missing (log (snd run)) "bot/update-cdn-3.0.0" /\
  changelog_ok (log (snd run)) "3.0.0" /\
  checkout_ok (log (snd run)) /\
  pushed (log (snd run)) "bot/update-cdn-3.0.0" /\
  List.filter is_write (log (snd run)) =
    [WriteText FILE_PATH
       "DEFAULT_PLOTLY = 'https://cdn.plot.ly/plotly-3.0.0.js'  # https://cdn.plot.ly/plotly-2.35.2.js"] /\
  (exists r,
      In (Run ["git"; "checkout"; "-b"; "bot/update-cdn-3.0.0"] r) (log (snd run)) /\
      returncode r = 0) /\
  (exists r,
      List.filter is_pr_create (log (snd run)) =
        [Run ["gh"; "pr"; "create"; "-B"; "master"; "-H"; "bot/update-cdn-3.0.0";
              "-t"; "Update Plotly.js CDN to v3.0.0";
              "-b"; "This PR updates the CDN URL to v3.0.0."] r]).
Proof.
  intros run.
  assert (H1 : reachable (log (snd run)) (cdn_url "3.0.0")) by found.
  assert (H2 : branch_missing (log (snd run)) (branch_of "3.0.0")).
  { exists not_found, (stderr not_found).
    split; [found|]. split; [discriminate|]. split; reflexivity. }
  assert (H3 : pr_missing (log (snd run)) (branch_of "3.0.0")).
  { exists (ok ""). split; [found|reflexivity]. }
  assert (H4 : changelog_ok (log (snd run)) "3.0.0") by found.
  assert (H5 : checkout_ok (log (snd run))).
  { intros b r H. entries H. injection H as _ <-. reflexivity. }
  assert (H6 : pushed (log (snd run)) (branch_of "3.0.0")).
  { exists (push fresh_release). split; [found|reflexivity]. }
  destruct (@new_release_is_published Demo.cfg Demo.lib release_out page "3.0.0"
              (fst run) (snd run) (resolves_3_0_0 release_out eq_refl)
              (surjective_pairing run) H1 H2 H3) as (_ & Hbranch & Hpr).
  repeat (split; [assumption|]).
  split; [reflexivity|].
  split; [exact (Hbranch H4 H5) | exact (Hpr H6)].
Defined.

(** The sentence of the specification fails, and so does each reading that
    leaves one of the three further conditions out.  When the changelog
    update fails no branch is created; when [git checkout -b] fails no
    branch is created although the run goes on to open the pull request;
    when [git push] is rejected no pull request is created. *)
Lemma publication_depends_on_changelog_checkout_and_push :
  ~ publishes_every_new_release changelog_fails page /\
  ~ publishes_given (fun l _ => checkout_ok l)
                    (fun l _ v => branch_created l v) changelog_fails page /\
  ~ publishes_given (fun l v => changelog_ok l v)
                    (fun l _ v => branch_created l v) checkout_fails page /\
  ~ publishes_given (fun l v => changelog_ok l v /\ checkout_ok l)
                    (fun l _ v => one_pr_created l v) push_rejected page.
Proof.
  assert (B : forall w,
             fst (get_latest_version w (start page)) = Return "3.0.0" ->
             In (Run (branch_cmd (branch_of "3.0.0")) not_found)
                (log (snd (run_script w page))) ->
             branch_missing (log (snd (run_script w page))) (branch_of "3.0.0")).
  { intros w _ Hin. exists not_found, (stderr not_found).
    split; [exact Hin|]. split; [discriminate|]. split; reflexivity. }
  split; [|split; [|split]]; intros H.
  - pose (run := run_script changelog_fails page).
    destruct (H "3.0.0" (fst run) (snd run)) as ((r & Hin & _) & _).
    + apply resolves_3_0_0. reflexivity.
    + apply surjective_pairing.
    + found.
    + apply B; [reflexivity|found].
    + exists (ok ""). split; [found|reflexivity].
    + exact I.
    + entries Hin.
  - pose (run := run_script changelog_fails page).
    destruct (H "3.0.0" (fst run) (snd run)) as (r & Hin & _).
    + apply resolves_3_0_0. reflexivity.
    + apply surjective_pairing.
    + found.
    + apply B; [reflexivity|found].
    + exists (ok ""). split; [found|reflexivity].
    + intros b r Hin. entries Hin.
    + entries Hin.
  - pose (run := run_script checkout_fails page).
    destruct (H "3.0.0" (fst run) (snd run)) as (r & Hin & Hrc).
    + apply resolves_3_0_0. reflexivity.
    + apply surjective_pairing.
    + found.
    + apply B; [reflexivity|found].
    + exists (ok ""). split; [found|reflexivity].
    + found.
    + entries Hin. injection Hin as <-. discriminate Hrc.
  - pose (run := run_script push_rejected page).
    destruct (H "3.0.0" (fst run) (snd run)) as (r & Hf).
    + apply resolves_3_0_0. reflexivity.
    + apply surjective_pairing.
    + found.
    + apply B; [reflexivity|found].
    + exists (ok ""). split; [found|reflexivity].
    + split; [found|]. intros b r Hin. entries Hin.
      injection Hin as _ <-. reflexivity.
    + vm_compute in Hf. discriminate Hf.
Qed.

Lemma branch_present_run_stops :
  let run := run_script branch_present page in
  branch_found (log (snd run)) (branch_of "3.0.0") /\
  fst run = Exit 1 /\
  exit_code (fst run) = 1 /\
  count is_git (log (snd run)) = 0%nat /\
  count is_pr_create (log (snd run)) = 0%nat.
Proof.
  intros run.
  assert (H : branch_found (log (snd run)) (branch_of "3.0.0")).
  { exists (ok ""). split; [found|reflexivity]. }
  split; [exact H|].
  destruct (@duplicate_stops_before_git Demo.cfg Demo.lib branch_present page "3.0.0"
              (fst run) (snd run) (resolves_3_0_0 branch_present eq_refl)
              (surjective_pairing run) (or_introl H))
    as (_ & H2 & H3 & H4).
  split; [reflexivity|]. repeat split; assumption.
Defined.

Lemma push_rejected_run_fails :
  let run := run_script push_rejected page in
  let cmd := ["git"; "push"; "-u"; "origin"; "bot/update-cdn-3.0.0"] in
  In (Run cmd rejected) (log (snd run)) /\
  checked_failure cmd rejected /\
  fst run = Exit 1 /\
  exit_code (fst run) = 1 /\
  printed (log (snd run)) "remote: permission denied".
Proof.
  intros run cmd.
  assert (H1 : In (Run cmd rejected) (log (snd run))) by found.
  assert (H2 : checked_failure cmd rejected).
  { right; right; left. exists (branch_of "3.0.0").
    split; [reflexivity|discriminate]. }
  repeat (split; [assumption|]).
  destruct (@checked_failure_is_fatal Demo.cfg Demo.lib push_rejected page
              (fst run) (snd run) _ _ (surjective_pairing run) H1 H2)
    as (C & _ & Hp).
  destruct (Hp _ eq_refl) as (E & P).
  split; [exact E|]. split; [exact C | exact P].
Defined.

(** The sentence of the specification fails for every command but the
    branch lookup.  On the way to the pull request the tag listing exits
    with 1, the pull request listing and the three git steps before the
    push fail on both counts, and the push and the pull request creation
    write to stderr: the run ends normally.  On the way to the issue the
    search fails on both counts and the creation exits with 1: the run ends
    normally.  And a rejected push whose stderr does not decode is not
    printed. *)
Lemma unchecked_failures_are_not_fatal :
  let b := "bot/update-cdn-3.0.0" in
  let t := "Update Plotly.js CDN to v3.0.0" in
  let title := "CDN not reachable for Plotly.js v3.0.0" in
  Forall (fun cmd => ~ failure_is_fatal_for quiet_failures page cmd)
    [ tags_cmd; pr_list_cmd b; checkout_cmd b; add_cmd; commit_cmd t;
      push_cmd b; pr_create_cmd b t (pr_body "3.0.0") ] /\
  Forall (fun cmd => ~ failure_is_fatal_for quiet_issue_failures page cmd)
    [ issue_list_cmd title;
      issue_create_cmd title (issue_body (cdn_url "3.0.0")) ] /\
  ~ failure_is_fatal_for garbled_push page (push_cmd b) /\
  ~ every_failure_is_fatal quiet_failures page.
Proof.
  assert (R : forall w cmd r,
             In (Run cmd r) (log (snd (run_script w page))) ->
             failed r ->
             (forall x, cmd <> branch_cmd x) ->
             fst (run_script w page) <> Exit 1 ->
             ~ failure_is_fatal_for w page cmd).
  { intros w cmd r Hin Hf Hc Hne H.
    destruct (H (fst (run_script w page)) (snd (run_script w page)) r
                (surjective_pairing _) Hin Hf) as (E & _).
    - intros (x & msg & Hx & _). exact (Hc x Hx).
    - exact (Hne E). }
  cbv zeta. split; [|split; [|split]].
  - repeat constructor.
    + apply (R _ _ (mkResult tags_new "" 1)); [found | left; discriminate | | discriminate].
      intros x. unfold branch_cmd. discriminate.
    + apply (R _ _ listing_failed); [found | left; discriminate | | discriminate].
      intros x. discriminate.
    + apply (R _ _ branch_taken); [found | left; discriminate | | discriminate].
      intros x. discriminate.
    + apply (R _ _ index_locked); [found | left; discriminate | | discriminate].
      intros x. discriminate.
    + apply (R _ _ nothing_to_commit); [found | left; discriminate | | discriminate].
      intros x. discriminate.
    + apply (R _ _ (push fresh_release)); [found | right; discriminate | | discriminate].
      intros x. discriminate.
    + apply (R _ _ pr_warned_link); [found | right; discriminate | | discriminate].
      intros x. discriminate.
  - repeat constructor.
    + apply (R _ _ search_warned); [found | left; discriminate | | discriminate].
      intros x. discriminate.
    + apply (R _ _ created_quietly); [found | left; discriminate | | discriminate].
      intros x. discriminate.
  - apply (R _ _ garbled_rejection); [found | left; discriminate | | discriminate].
    intros x. discriminate.
  - intros H.
    apply (R quiet_failures (checkout_cmd "bot/update-cdn-3.0.0") branch_taken);
      [found | left; discriminate | intros x; discriminate | discriminate | apply H].
Qed.





Lemma missing_issue_run_creates_one :
  let run := run_script (bundle_missing issues_none) page in
  unreachable (log (snd run)) "https://cdn.plot.ly/plotly-3.0.0.js" /\
  issues_listed (log (snd run)) "CDN not reachable for Plotly.js v3.0.0" [] /\
  exists r,
    List.filter is_issue_create (log (snd run)) =
      [Run ["gh"; "issue"; "create"; "-R"; "plotly/Kaleido";
            "-t"; "CDN not reachable for Plotly.js v3.0.0";
            "-b"; "URL: https://cdn.plot.ly/plotly-3.0.0.js - invalid url"] r] /\
    count is_issue_create (log (snd run)) = 1%nat.
Proof.
  intros run.
  assert (H1 : unreachable (log (snd run)) (cdn_url "3.0.0")).
  { exists 404. split; [found|discriminate]. }
  assert (H2 : issues_listed (log (snd run)) (issue_title "3.0.0") []).
  { exists (ok issues_none), issues_none.
    split; [found|]. split; reflexivity. }
  repeat (split; [assumption|]).
  destruct (@missing_issue_is_created Demo.cfg Demo.lib (bundle_missing issues_none) page
              "3.0.0" (fst run) (snd run)
              (resolves_3_0_0 (bundle_missing issues_none) eq_refl)
              (surjective_pairing run) H1 H2)
    as (body & r & Hf & Hc & -> & _).
  exists r. split; assumption.
Defined.

(** The sentence of the specification fails when the URL cannot be reached
    at all: the run ends with the exception of the HEAD request and files
    no issue, although none exists. *)
Lemma unanswered_request_files_no_issue :
  ~ missing_issue_is_filed (unanswered issues_none) page.
Proof.
  intros H.
  pose (run := run_script (unanswered issues_none) page).
  assert (E : count is_issue_create (log (snd run)) = 1%nat).
  { apply (H "3.0.0" (fst run)).
    - apply resolves_3_0_0. reflexivity.
    - apply surjective_pairing.
    - intros h. discriminate.
    - intros h. exists issues_none. split; reflexivity. }
  vm_compute in E. discriminate E.
Qed.

Lemma missing_branch_run_proceeds :
  let run := run_script release_out page in
  In (Run ["gh"; "api"; "repos/plotly/Kaleido/branches/bot/update-cdn-3.0.0";
           "--silent"] not_found) (log (snd run)) /\
  PyStr.decode (stderr not_found) = Some "gh: Not Found (HTTP 404)" /\
  exists rp,
    In (Run ["gh"; "pr"; "list"; "-R"; "plotly/Kaleido";
             "-H"; "bot/update-cdn-3.0.0"; "--state"; "all"] rp) (log (snd run)).
Proof.
  intros run.
  assert (H1 : In (Run ["gh"; "api";
                        "repos/plotly/Kaleido/branches/bot/update-cdn-3.0.0";
                        "--silent"] not_found) (log (snd run)))
    by found.
  split; [assumption|]. split; [reflexivity|].
  destruct (@branch_lookup_is_classified Demo.cfg Demo.lib release_out page "3.0.0"
              (fst run) (snd run) not_found
              (resolves_3_0_0 release_out eq_refl)
              (surjective_pairing run) H1) as (_ & Hgo & _).
  apply (Hgo ltac:(discriminate) _ eq_refl eq_refl).
Defined.

(** The classification by the bytes of stderr fails: the lookup exits with 1
    and its stderr holds "HTTP 404" among bytes that are not UTF-8; the run
    raises [UnicodeDecodeError] and never lists the pull requests. *)
Lemma undecodable_404_stops_run :
  ~ lookup_is_classified garbled_lookup page.
Proof.
  intros H.
  pose (run := run_script garbled_lookup page).
  destruct (H "3.0.0" (fst run) (snd run) garbled_404) as (_ & Hgo & _).
  - apply resolves_3_0_0. reflexivity.
  - apply surjective_pairing.
  - found.
  - destruct Hgo as (rp & Hin); [discriminate | reflexivity |].
    entries Hin.
Qed.

Lemma branch_present_run_leaves_file_rewritten :
  let run := run_script branch_present page in
  reachable (log (snd run)) "https://cdn.plot.ly/plotly-3.0.0.js" /\
  branch_found (log (snd run)) "bot/update-cdn-3.0.0" /\
  exit_code (fst run) = 1 /\
  page_source (snd run) =
    "DEFAULT_PLOTLY = 'https://cdn.plot.ly/plotly-3.0.0.js'  # https://cdn.plot.ly/plotly-2.35.2.js" /\
  page_source (snd run) <> page.
Proof.
  intros run.
  assert (H1 : reachable (log (snd run)) (cdn_url "3.0.0")) by found.
  assert (H2 : branch_found (log (snd run)) (branch_of "3.0.0")).
  { exists (ok ""). split; [found|reflexivity]. }
  split; [assumption|]. split; [assumption|].
  destruct (@file_is_rewritten_before_duplicate_checks Demo.cfg Demo.lib branch_present
              page "3.0.0" (fst run) (snd run)
              (resolves_3_0_0 branch_present eq_refl)
              (surjective_pairing run) H1)
    as (rewritten & _ & Hchanged & Hp & _ & Hstop).
  destruct (Hstop (or_introl H2)) as (E & _ & _).
  split; [exact E|]. split; [reflexivity|].
  rewrite Hp. apply Hchanged. reflexivity.
Defined.

End Examples.

(** * More of the script *)

(** ** Resolving the version *)

Section Resolution.

Context {lib : Library}.
Variable w : World.

Lemma parse_tags_invalid names :
  Exists (fun name => semver_parse (strip_v name) = None) names ->
  parse_tags (List.map (fun n => JStr (strip_v n)) names) = inl "ValueError".
Proof.
  induction names as [|name names IH]; intros H; [inversion H|].
  cbn [List.map parse_tags]. unfold parse_tag.
  destruct (semver_parse (strip_v name)) eqn:E; [|reflexivity].
  rewrite IH; [reflexivity|]. inversion H; subst; [congruence|assumption].
Qed.

(** X1: [get_latest_version] returns a version exactly when the tag listing
    leaves stderr empty and its output decodes to at least one version; an
    empty listing, like an undecodable one, ends in an exception. *)
Theorem get_latest_version_returns_iff (s : State) :
  let r := exec w (log s) tags_cmd in
  (exists v s1, get_latest_version w s = (Return v, s1)) <->
  (stderr r = "" /\
   exists doc tags x versions,
     json_loads (stdout r) = Some doc /\
     Jq.tag_names doc = Some tags /\
     parse_tags tags = inr (x :: versions)).
Proof.
  intros r. unfold get_latest_version, bind, run, raise, ret, print, sys_exit.
  fold r. split.
  - intros (v & s1 & H). revert H.
    destruct (json_loads (stdout r)) as [doc|] eqn:Hdoc; [|discriminate].
    destruct (Jq.tag_names doc) as [tags|] eqn:Htags; [|discriminate].
    destruct (parse_tags tags) as [e|[|x versions]] eqn:Hparse; [discriminate| |].
    + destruct (PyStr.truthy (stderr r));
        [unfold decode; destruct (PyStr.decode _)|]; discriminate.
    + destruct (stderr r); cbn [PyStr.truthy];
        [|unfold decode; destruct (PyStr.decode _); discriminate].
      intros _. split; [reflexivity|]. now exists doc, tags, x, versions.
  - intros (E & doc & tags & x & versions & -> & -> & ->).
    rewrite E. cbn [PyStr.truthy py_max]. eauto.
Qed.

(** X2: One tag that is no semantic version stops the resolution: the function
    raises [ValueError], whatever the other tags are, and without printing
    what the listing wrote to stderr. *)
Theorem invalid_tag_stops_resolution (s : State)
    (items : list json) (names : list string) :
  let r := exec w (log s) tags_cmd in
  json_loads (stdout r) = Some (JArr items) ->
  Forall2 (fun item name => Jq.field "name" item = Some (JStr name)) items names ->
  Exists (fun name => semver_parse (strip_v name) = None) names ->
  get_latest_version w s = (Raise "ValueError", record (Run tags_cmd r) s).
Proof.
  intros r Hdoc Hitems Hbad.
  unfold get_latest_version, bind, run. fold r.
  now rewrite Hdoc, (tag_names_of _ _ Hitems), (parse_tags_invalid _ Hbad).
Qed.

Context {total : TotalPrecedence lib}.

Lemma gt_below (a m r : Version) :
  gt a m = false -> gt r m = true -> gt r a = true.
Proof.
  pose proof total_is_order as ord.
  unfold gt. intros Ha Hr.
  destruct (semver_compare r m) eqn:Erm; try discriminate.
  destruct (semver_compare a m) eqn:Eam; try discriminate.
  - now rewrite (compare_eq_compat a m r Eam), Erm.
  - assert (Ema : semver_compare m a = Gt).
    { rewrite (compare_antisym a m), Eam. reflexivity. }
    now rewrite (compare_trans _ _ _ Erm Ema).
Qed.

(** The running maximum stays at the start value, or moves to the first
    element that is above everything before it. *)
Lemma max_from_first (l : list Version) (m : Version) :
  (max_from gt m l = m /\ forall v, In v l -> gt v m = false) \/
  (exists pre post,
      l = (pre ++ max_from gt m l :: post)%list /\
      gt (max_from gt m l) m = true /\
      (forall v, In v pre -> gt (max_from gt m l) v = true) /\
      (forall v, In v post -> gt v (max_from gt m l) = false)).
Proof.
  pose proof total_is_order as ord.
  revert m. induction l as [|x l IH]; intros m; cbn [max_from].
  - left. split; [reflexivity|]. intros v [].
  - destruct (gt x m) eqn:E.
    + right. destruct (IH x) as [(Hr & Hall)|(pre & post & Hl & Hgt & Hpre & Hpost)].
      * exists [], l. rewrite Hr. cbn [List.app].
        split; [reflexivity|]. split; [assumption|].
        split; [intros v []|assumption].
      * exists (x :: pre), post. cbn [List.app]. rewrite <- Hl.
        split; [reflexivity|].
        split; [eapply gt_trans; eassumption|].
        split; [|assumption].
        intros v [<-|Hv]; auto.
    + destruct (IH m) as [(Hr & Hall)|(pre & post & Hl & Hgt & Hpre & Hpost)].
      * left. split; [assumption|]. intros v [<-|Hv]; auto.
      * right. exists (x :: pre), post. cbn [List.app]. rewrite <- Hl.
        split; [reflexivity|]. split; [assumption|]. split; [|assumption].
        intros v [<-|Hv]; auto. eapply gt_below; eassumption.
Qed.

(** X3: Among tags of equal precedence the one listed first is returned: the
    result outranks every tag listed before it and is outranked by none
    listed after it. *)
Theorem first_of_equal_precedence_is_returned (s : State)
    (items : list json) (names : list string) (versions : list Version) :
  let r := exec w (log s) tags_cmd in
  stderr r = "" ->
  json_loads (stdout r) = Some (JArr items) ->
  Forall2 (fun item name => Jq.field "name" item = Some (JStr name)) items names ->
  Forall2 (fun name v => semver_parse (strip_v name) = Some v) names versions ->
  versions <> [] ->
  exists pre m post,
    versions = (pre ++ m :: post)%list /\
    (forall v, In v pre -> semver_compare m v = Gt) /\
    (forall v, In v post -> semver_compare v m <> Gt) /\
    get_latest_version w s = (Return (semver_str m), record (Run tags_cmd r) s).
Proof.
  intros r Herr Hdoc Hitems Hparse Hne.
  assert (G : forall a b : Version, gt a b = true -> semver_compare a b = Gt).
  { unfold gt. intros a b. now destruct (semver_compare a b). }
  assert (N : forall a b : Version, gt a b = false -> semver_compare a b <> Gt).
  { unfold gt. intros a b. now destruct (semver_compare a b). }
  assert (R : get_latest_version w s =
              match py_max gt versions with
              | Some m => (Return (semver_str m), record (Run tags_cmd r) s)
              | None => (Raise "ValueError", record (Run tags_cmd r) s)
              end).
  { unfold get_latest_version, bind, run. fold r.
    rewrite Hdoc, (tag_names_of _ _ Hitems), (parse_tags_of _ _ Hparse), Herr.
    cbn [PyStr.truthy ret]. now destruct (py_max gt versions). }
  destruct versions as [|x l]; [congruence|]. cbn [py_max] in R.
  destruct (max_from_first l x) as [(Hr & Hall)|(pre & post & Hl & Hgt & Hpre & Hpost)].
  - exists [], x, l. cbn [List.app]. rewrite Hr in R.
    split; [reflexivity|]. split; [intros v []|].
    split; [intros v Hv; apply N, Hall, Hv | exact R].
  - exists (x :: pre), (max_from gt x l), post. cbn [List.app]. rewrite <- Hl.
    split; [reflexivity|].
    split; [intros v [<-|Hv]; apply G; auto|].
    split; [intros v Hv; apply N, Hpost, Hv | exact R].
Qed.

End Resolution.

(** ** Every run *)

(** Every way a run can go, with the answers of the world as variables: the
    tag listing resolves ([Hres]), raises, or exits. *)
Ltac run_every w source :=
  let o1 := fresh "o" in
  let s1 := fresh "s" in
  let Hv := fresh "Hv" in
  let Hc := fresh "Hc" in
  unfold run_script, main, bind;
  destruct (get_latest_version w (start source)) as [o1 s1] eqn:Hv;
  pose proof (get_latest_version_cases _ _ _ _ Hv) as Hc; cbv zeta in Hc;
  unfold start in Hc; cbn [log] in Hc;
  destruct Hc as [([v ->] & E & ->)|[([e ->] & E & ->)|(-> & E & ->)]];
  [ assert (Hres : resolves w source v) by (eexists; exact Hv);
    clear Hv E; execute w
  | clear Hv E; unfold record; cbn [log page_source start]
  | clear Hv E; unfold record; cbn [log page_source start] ];
  intros [= <- <-]; cbn [log page_source].

(** As [settle_scan], keeping what the loop leaves of the page. *)
Ltac settle_issues :=
  try match goal with
  | H : scan_issues _ _ _ = _ |- _ =>
      apply scan_issues_log in H; cbn [log page_source] in H;
      let extra := fresh "extra" in
      let Hpage := fresh "Hpage" in
      let Hlog := fresh "Hlog" in
      let Hprints := fresh "Hprints" in
      let Hret := fresh "Hret" in
      let Hexit := fresh "Hexit" in
      destruct H as (Hpage & extra & Hlog & Hprints & Hret & Hexit)
  end.

Section Counting.

Context {cfg : Config} {lib : Library}.

Lemma count_cons f e l :
  count f (e :: l) = ((if f e then 1 else 0) + count f l)%nat.
Proof. unfold count. cbn [List.filter]. now destruct (f e). Qed.

Lemma count_app f l1 l2 : count f (l1 ++ l2) = (count f l1 + count f l2)%nat.
Proof. unfold count. now rewrite List.filter_app, List.length_app. Qed.

Lemma count_prints f extra :
  (forall to text, f (Print to text) = false) ->
  Forall (fun e => is_print e = true) extra -> count f extra = 0%nat.
Proof. intros Hf H. unfold count. now rewrite (filter_prints f extra Hf H). Qed.

Lemma listed_once_start r : listed_once [Run tags_cmd r].
Proof. exists r, []. split; [reflexivity|]. intros r' []. Qed.

Lemma listed_once_cons e l :
  (forall r', e <> Run tags_cmd r') -> listed_once l -> listed_once (e :: l).
Proof.
  intros He (r & later & -> & Hno). exists r, (e :: later).
  split; [reflexivity|]. intros r' [H|H]; [now apply (He r') | now apply (Hno r')].
Qed.

Lemma listed_once_app extra l :
  Forall (fun e => is_print e = true) extra -> listed_once l ->
  listed_once (extra ++ l).
Proof.
  intros Hp. induction Hp as [|e extra He _ IH]; intros H; [exact H|].
  cbn [List.app]. apply listed_once_cons; [|auto].
  intros r' ->. discriminate.
Qed.

End Counting.

Ltac count_log :=
  repeat match goal with
  | H : log _ = _ |- _ => rewrite H
  end;
  rewrite ?count_cons, ?count_app;
  repeat match goal with
  | H : Forall (fun e => is_print e = true) ?extra |- context [count ?f ?extra] =>
      rewrite (count_prints f extra (fun _ _ => eq_refl) H)
  end;
  rewrite ?count_cons; unfold count; cbn [List.filter List.length].

Section Every_run.

Context {cfg : Config} {lib : Library}.
Variable w : World.

(** X4: The process ends with exit code 0 or 1, never with another one. *)
Theorem exit_code_is_0_or_1 (source : string) :
  exit_code (fst (run_script w source)) = 0 \/
  exit_code (fst (run_script w source)) = 1.
Proof.
  destruct (run_script w source) as [o st] eqn:Hrun. cbn [fst]. revert Hrun.
  run_every w source; settle_scan; cbn [exit_code]; auto.
Qed.

(** X5: A run that ends with exit code 0 has said why as its last action: it is
    up to date or the issue is closed ([sys.exit(0)]), or the pull request or
    the issue was created ([main] returns). *)
Theorem exit_0_ends_with_a_message (source : string)
    (o : Outcome unit) (st : State) :
  run_script w source = (o, st) ->
  exit_code o = 0 ->
  exists msg rest,
    log st = Print Out msg :: rest /\
    ((o = Exit 0 /\
      (msg = "Already up to date" \/
       exists v, msg = "Issue '" ++ issue_title v ++ "' is closed")) \/
     (o = Return tt /\
      ((exists x, msg = "Pull request: " ++ x) \/
       exists v x, msg = "The issue '" ++ issue_title v ++ "' was created in " ++ x))).
Proof.
  run_every w source; settle_scan; cbn [exit_code]; try discriminate.
  all: try (intros ->; specialize (Hexit 0 eq_refl); discriminate).
  all: intros _; eexists; eexists; (split; [reflexivity|]).
  all: first [ left; split; [reflexivity|]; first [left; reflexivity | right; eexists; reflexivity]
             | right; split; [reflexivity|];
               first [left; eexists; reflexivity | right; eexists; eexists; reflexivity] ].
Qed.

(** X6: The tag listing is the first thing every run does, and no run lists the
    tags twice. *)
Theorem tag_listing_is_first_and_only (source : string) :
  exists r later,
    log (snd (run_script w source)) = (later ++ [Run tags_cmd r])%list /\
    forall r', ~ In (Run tags_cmd r') later.
Proof.
  change (listed_once (log (snd (run_script w source)))).
  destruct (run_script w source) as [o st] eqn:Hrun. cbn [snd]. revert Hrun.
  run_every w source; settle_scan; try rewrite Hlog.
  all: repeat first
         [ apply listed_once_start
         | apply listed_once_app; [assumption|]
         | apply listed_once_cons;
           [ intros r' Hr'; solve [discriminate Hr' | unfold_cmds; congruence] | ] ].
Qed.

(** X7: The page generator file is either left as it was, with no write at all,
    or written exactly once, after the new URL answered 200, with the first
    occurrence of the old URL replaced. *)
Theorem file_is_untouched_or_rewritten_once (source : string) :
  let st := snd (run_script w source) in
  (page_source st = source /\ count is_write (log st) = 0%nat) \/
  (exists v,
      resolves w source v /\
      reachable (log st) (cdn_url v) /\
      page_source st = PyStr.replace_first DEFAULT_PLOTLY (cdn_url v) source /\
      List.filter is_write (log st) = [WriteText FILE_PATH (page_source st)]).
Proof.
  cbv zeta.
  destruct (run_script w source) as [o st] eqn:Hrun. cbn [snd]. revert Hrun.
  run_every w source; settle_issues.
  all: try solve [left; split; [first [reflexivity | assumption] | count_log; reflexivity]].
  all: right; exists v; facts; subst; unfold reachable; cbn [In].
  all: split; [assumption|].
  all: split; [solve [repeat (first [left; reflexivity | right])]|].
  all: split; reflexivity.
Qed.

(** X8: No run creates more than one pull request or issue, and none creates
    both. *)
Theorem at_most_one_pr_or_issue (source : string) :
  (count is_pr_create (log (snd (run_script w source))) +
   count is_issue_create (log (snd (run_script w source))) <= 1)%nat.
Proof.
  destruct (run_script w source) as [o st] eqn:Hrun. cbn [snd]. revert Hrun.
  run_every w source; settle_scan.
  all: count_log; unfold_cmds; cbn; lia.
Qed.

End Every_run.

(** ** What a run does and what it leaves alone *)

Section Actions.

Context {cfg : Config} {lib : Library}.
Variable w : World.

Lemma replace_first_absent old new s :
  PyStr.contains old s = false -> PyStr.replace_first old new s = s.
Proof.
  intros H. destruct (replace_first_spec old new s) as [[_ E]|(pre & post & E & _)].
  - exact E.
  - rewrite E, contains_app in H. discriminate.
Qed.

Lemma not_open_is_closed issues :
  Forall (fun issue => ~ state_is "OPEN" issue) issues ->
  List.find is_open issues = None.
Proof.
  induction 1 as [|i l Hi _ IH]; cbn [List.find]; [reflexivity|].
  destruct (is_open i) eqn:E; [|exact IH].
  elim Hi. now apply is_open_state.
Qed.

(** X9: A pull request is created only at the end of [create_pr]: for a version
    other than the current one whose URL answered 200, after the branch
    lookup said HTTP 404, the pull request listing printed nothing, the
    changelog was updated and [git push] exited with 0. *)
Theorem pull_request_follows_every_check (source : string)
    (o : Outcome unit) (st : State) (cmd : list string) (r : CmdResult) :
  run_script w source = (o, st) ->
  In (Run cmd r) (log st) ->
  is_pr_create (Run cmd r) = true ->
  exists v,
    resolves w source v /\
    cmd = pr_create_cmd (branch_of v) (pr_title v) (pr_body v) /\
    cdn_url v <> DEFAULT_PLOTLY /\
    reachable (log st) (cdn_url v) /\
    branch_missing (log st) (branch_of v) /\
    pr_missing (log st) (branch_of v) /\
    changelog_ok (log st) v /\
    pushed (log st) (branch_of v).
Proof.
  run_every w source; settle_scan; try rewrite Hlog.
  all: intros Hi Hc; cbn [In] in Hi; locate Hi.
  all: try discriminate Hc.
  all: facts; subst; exists v.
  all: unfold reachable, branch_missing, pr_missing, changelog_ok, pushed.
  all: repeat match goal with
       | |- _ /\ _ => split
       | |- exists _, _ => eexists
       end; cbn [In];
       first [ eassumption | reflexivity
             | solve [repeat (first [left; reflexivity | right])] ].
Qed.

(** X10: An issue is created only at the end of [main]'s other branch: the HEAD
    request was answered with a status other than 200 and the issue search
    answered a document that Python takes as false (an empty list, for
    one). *)
Theorem issue_follows_failed_request_and_empty_search (source : string)
    (o : Outcome unit) (st : State) (cmd : list string) (r : CmdResult) :
  run_script w source = (o, st) ->
  In (Run cmd r) (log st) ->
  is_issue_create (Run cmd r) = true ->
  exists v,
    resolves w source v /\
    cmd = issue_create_cmd (issue_title v) (issue_body (cdn_url v)) /\
    unreachable (log st) (cdn_url v) /\
    exists ri doc,
      In (Run (issue_list_cmd (issue_title v)) ri) (log st) /\
      json_loads (stdout ri) = Some doc /\ Json.truthy doc = false.
Proof.
  run_every w source; settle_scan; try rewrite Hlog.
  all: intros Hi Hc; cbn [In] in Hi; locate Hi.
  all: try discriminate Hc.
  all: facts; subst; exists v; unfold unreachable.
  all: repeat match goal with
       | |- _ /\ _ => split
       | |- exists _, _ => eexists
       end; cbn [In];
       first [ eassumption | reflexivity
             | solve [repeat (first [left; reflexivity | right])] ].
Qed.

(** X11: A run issues no git command at all, or [git checkout -b], [git add],
    [git commit] and [git push] once each and in this order, after the
    changelog was updated: what the first three answer is never looked at. *)
Theorem git_steps_run_together (source : string) :
  let l := log (snd (run_script w source)) in
  List.filter is_git l = [] \/
  exists v r1 r2 r3 r4,
    resolves w source v /\
    changelog_ok l v /\
    List.filter is_git l =
      [Run (push_cmd (branch_of v)) r4; Run (commit_cmd (pr_title v)) r3;
       Run add_cmd r2; Run (checkout_cmd (branch_of v)) r1].
Proof.
  cbv zeta.
  destruct (run_script w source) as [o st] eqn:Hrun. cbn [snd]. revert Hrun.
  run_every w source; settle_scan; try rewrite Hlog.
  all: try solve [left; reflexivity].
  all: try solve [left; cbn [List.filter is_git is_run_of];
                  rewrite ?List.filter_app;
                  match goal with
                  | H : Forall _ ?extra |- _ =>
                      rewrite (filter_prints is_git extra (fun _ _ => eq_refl) H)
                  end; reflexivity].
  all: right; exists v; do 4 eexists.
  all: split; [assumption|]; split;
         [unfold changelog_ok; cbn [In]; facts; subst;
          solve [repeat (first [left; reflexivity | right])]
         | reflexivity].
Qed.

(** X12: The pull request creation is judged by its exit code alone.  With 0 the
    run decodes the output of the command and ends normally, its last
    message being the link, stripped of the white space around it; with
    another code the run decodes the stderr of the command, prints it to
    stderr and exits with code 1.  Bytes that do not decode raise
    [UnicodeDecodeError] in both cases. *)
Theorem pull_request_creation_is_judged_by_exit_code (source : string)
    (o : Outcome unit) (st : State) (cmd : list string) (r : CmdResult) :
  run_script w source = (o, st) ->
  In (Run cmd r) (log st) ->
  is_pr_create (Run cmd r) = true ->
  exists rest,
    (returncode r = 0 ->
       (forall link, PyStr.decode (stdout r) = Some link ->
          o = Return tt /\
          log st = Print Out ("Pull request: " ++ PyStr.strip link)
                     :: Run cmd r :: rest) /\
       (PyStr.decode (stdout r) = None ->
          o = Raise "UnicodeDecodeError" /\ log st = Run cmd r :: rest)) /\
    (returncode r <> 0 ->
       (forall text, PyStr.decode (stderr r) = Some text ->
          o = Exit 1 /\ log st = Print Err text :: Run cmd r :: rest) /\
       (PyStr.decode (stderr r) = None ->
          o = Raise "UnicodeDecodeError" /\ log st = Run cmd r :: rest)).
Proof.
  run_every w source; settle_scan; try rewrite Hlog.
  all: intros Hi Hc; cbn [In] in Hi; locate Hi.
  all: try discriminate Hc.
  all: facts; eexists; split; intros H0.
  all: try solve [exfalso; congruence].
  all: split; [intros text Ht; pose proof (decode_text _ _ Ht); subst text
              |intros Hn].
  all: first [ exfalso; congruence | split; reflexivity ].
Qed.

(** X13: The issue creation is judged by its stderr alone.  When it is empty the
    run decodes the output of the command and ends normally, whatever the
    exit code, its last message holding the link, stripped of the white
    space around it; otherwise the run decodes the stderr, prints it to
    stdout and exits with code 1.  Bytes that do not decode raise
    [UnicodeDecodeError] in both cases. *)
Theorem issue_creation_is_judged_by_stderr (source : string)
    (o : Outcome unit) (st : State) (cmd : list string) (r : CmdResult) :
  run_script w source = (o, st) ->
  In (Run cmd r) (log st) ->
  is_issue_create (Run cmd r) = true ->
  exists v rest,
    resolves w source v /\
    (stderr r = "" ->
       (forall link, PyStr.decode (stdout r) = Some link ->
          o = Return tt /\
          log st = Print Out ("The issue 'CDN not reachable for Plotly.js v" ++ v
                              ++ "' was created in " ++ PyStr.strip link)
                     :: Run cmd r :: rest) /\
       (PyStr.decode (stdout r) = None ->
          o = Raise "UnicodeDecodeError" /\ log st = Run cmd r :: rest)) /\
    (stderr r <> "" ->
       (forall text, PyStr.decode (stderr r) = Some text ->
          o = Exit 1 /\ log st = Print Out text :: Run cmd r :: rest) /\
       (PyStr.decode (stderr r) = None ->
          o = Raise "UnicodeDecodeError" /\ log st = Run cmd r :: rest)).
Proof.
  run_every w source; settle_scan; try rewrite Hlog.
  all: intros Hi Hc; cbn [In] in Hi; locate Hi.
  all: try discriminate Hc.
  all: facts; exists v; eexists; split; [assumption|]; split; intros H0.
  all: try solve [exfalso; congruence].
  all: split; [intros text Ht; pose proof (decode_text _ _ Ht); subst text
              |intros Hn].
  all: first [ exfalso; congruence | split; reflexivity ].
Qed.

(** X14: A HEAD request that raises instead of answering ends the run with the
    exception: nothing was done but the tag listing, no issue is filed and
    the file stays as it was. *)
Theorem unanswered_request_ends_run (source url : string)
    (o : Outcome unit) (st : State) :
  run_script w source = (o, st) ->
  In (Head url None) (log st) ->
  o = Raise "ClientError" /\ exit_code o = 1 /\
  page_source st = source /\
  exists v r, resolves w source v /\ url = cdn_url v /\
              log st = [Head url None; Run tags_cmd r].
Proof.
  run_every w source; settle_scan; try rewrite Hlog.
  all: intros Hi; cbn [In] in Hi; locate Hi.
  repeat split. exists v. eexists. repeat split. assumption.
Qed.

(** X15: When the HEAD request is answered with a status other than 200 (a
    redirect such as 301 included), the run leaves the working tree alone:
    the file is not written, and no git command, changelog update or pull
    request operation happens. *)
Theorem unreachable_release_leaves_tree_alone (source url : string)
    (o : Outcome unit) (st : State) :
  run_script w source = (o, st) ->
  unreachable (log st) url ->
  page_source st = source /\
  count is_write (log st) = 0%nat /\
  count is_git (log st) = 0%nat /\
  count is_changelog (log st) = 0%nat /\
  count is_pr_op (log st) = 0%nat.
Proof.
  run_every w source; settle_issues.
  all: intros (answered & Hi & Hne).
  all: try rewrite Hlog in Hi; cbn [In] in Hi; locate Hi; facts.
  all: try solve [exfalso; congruence].
  all: split; [first [reflexivity | assumption]|].
  all: repeat split; count_log; reflexivity.
Qed.

(** X16: Only the exact state "OPEN" makes an issue count as open.  When the
    search lists issues and none of them is OPEN (a missing state included),
    the run says the issue is closed and exits with code 0 without creating
    one. *)
Theorem only_OPEN_counts_as_open (source v : string)
    (o : Outcome unit) (st : State) (issues : list (list (string * json))) :
  resolves w source v ->
  run_script w source = (o, st) ->
  unreachable (log st) (cdn_url v) ->
  issues_listed (log st) (issue_title v) issues ->
  issues <> [] ->
  Forall (fun issue => ~ state_is "OPEN" issue) issues ->
  o = Exit 0 /\
  count is_issue_create (log st) = 0%nat /\
  exists rest,
    log st = Print Out ("Issue '" ++ issue_title v ++ "' is closed") :: rest.
Proof.
  intros [s1 Hv] Hrun. run_main w Hv Hrun.
  all: intros _ (ri & answer & Hi & Hdec & Hdoc) Hne Hclosed.
  all: issue_path Hi Hdoc.
  all: try (destruct issues; [congruence | discriminate]).
  all: match goal with H : scan_issues _ _ _ = _ |- _ =>
         rewrite scan_issues_objects, (not_open_is_closed _ Hclosed) in H;
         injection H as H1 H2 end.
  all: try discriminate.
  subst. cbn [log record].
  repeat split. eexists. reflexivity.
Qed.

(** X17: An issue search that answers a non-empty JSON object (the error object
    of the API, for one) instead of a list makes the run raise
    [AttributeError]: no issue is created. *)
Theorem object_answer_to_issue_search_raises (source v : string)
    (o : Outcome unit) (st : State) (ri : CmdResult) (answer : string)
    (fields : list (string * json)) :
  resolves w source v ->
  run_script w source = (o, st) ->
  In (Run (issue_list_cmd (issue_title v)) ri) (log st) ->
  PyStr.decode (stdout ri) = Some answer ->
  json_loads answer = Some (JObj fields) ->
  fields <> [] ->
  o = Raise "AttributeError" /\ exit_code o = 1 /\
  count is_issue_create (log st) = 0%nat.
Proof.
  intros [s1 Hv] Hrun. run_main w Hv Hrun.
  all: intros Hi Hdec Hdoc Hne.
  all: issue_path Hi Hdoc.
  all: try solve [repeat split].
  all: try (destruct fields; [congruence | discriminate]).
Qed.

(** X18: The script never checks that the replacement changed anything: when the
    old URL does not occur in the file, every write of the run writes the
    text that was read, and the file ends as it began. *)
Theorem absent_constant_gives_unchanged_file (source : string)
    (o : Outcome unit) (st : State) :
  run_script w source = (o, st) ->
  PyStr.contains DEFAULT_PLOTLY source = false ->
  page_source st = source /\
  forall path content, In (WriteText path content) (log st) -> content = source.
Proof.
  run_every w source; settle_issues.
  all: intros Hno; rewrite ?(replace_first_absent _ _ _ Hno).
  all: split; [first [reflexivity | assumption]|].
  all: intros path content Hi; try rewrite Hlog in Hi; cbn [In] in Hi; locate Hi.
  all: reflexivity.
Qed.

Lemma scan_issues_exit title l s c s' :
  scan_issues title l s = (Exit c, s') ->
  exists m1 m2, log s' = Print Out m1 :: Print Out m2 :: log s.
Proof.
  revert s. induction l as [|i l IH]; intros s; cbn [scan_issues].
  - discriminate.
  - destruct i; try discriminate.
    destruct (is_open fields); [|apply IH].
    unfold bind, print, sys_exit, record. intros [= _ <-]. cbn [log]. eauto.
Qed.

(** X19: A run that exits with code 1 has said why as its last action.  The
    message goes to stderr when the run stopped inside [create_pr], that is
    after the new URL answered 200, and to stdout in every other case. *)
Theorem exit_1_ends_with_a_message (source : string)
    (o : Outcome unit) (st : State) :
  run_script w source = (o, st) ->
  o = Exit 1 ->
  exists to msg rest,
    log st = Print to msg :: rest /\
    (to = Err <-> exists v, reachable (log st) (cdn_url v)).
Proof.
  run_every w source;
    try match goal with
    | H : scan_issues _ _ _ = (Exit _, _) |- _ =>
        apply scan_issues_exit in H; cbn [log] in H;
        destruct H as (m1 & m2 & H); rewrite H
    end; try discriminate.
  all: intros _; do 3 eexists; (split; [reflexivity|]).
  all: unfold reachable; split.
  all: try discriminate.
  all: try solve [intros _; reflexivity].
  all: try (intros _; exists v; facts; subst; cbn [In];
            solve [repeat (first [left; reflexivity | right])]).
  all: intros (v' & Hi); exfalso; cbn [In] in Hi; locate Hi; facts; congruence.
Qed.

End Actions.

(** ** The [SemVer] model is a total precedence order *)

Module SemVerTotal.
Import SemVer SemVerOrder.

Lemma idents_eq a b : compare_idents a b = Eq -> a = b.
Proof.
  revert b. induction a as [|x a IH]; intros [|y b]; cbn [compare_idents];
    try discriminate; [reflexivity|].
  destruct (compare_ident x y) eqn:E; cbn [lex]; try discriminate.
  intros H. now rewrite (ident_eq _ _ E), (IH _ H).
Qed.

Lemma prerelease_eq a b : compare_prerelease a b = Eq -> a = b.
Proof.
  destruct a as [|x a], b as [|y b]; cbn [compare_prerelease];
    try discriminate; [reflexivity|].
  apply idents_eq.
Qed.

Lemma lex_eq c d : lex c d = Eq -> c = Eq /\ d = Eq.
Proof. destruct c; cbn [lex]; try discriminate. auto. Qed.

(** Versions of equal precedence differ in build metadata only, so they
    compare alike with every third version. *)
Lemma compare_respects_equal a b c : compare a b = Eq -> compare c a = compare c b.
Proof.
  unfold compare. intros H.
  apply lex_eq in H as [H1 H]. apply lex_eq in H as [H2 H].
  apply lex_eq in H as [H3 H4].
  apply N_eq in H1, H2, H3. apply prerelease_eq in H4.
  now rewrite H1, H2, H3, H4.
Qed.

End SemVerTotal.

#[export] Instance Cases_precedence : PrecedenceOrder Cases.lib.
Proof.
  split.
  - exact SemVerOrder.compare_is_antisymmetric.
  - exact SemVerOrder.compare_is_transitive.
Qed.

#[export] Instance Cases_total : TotalPrecedence Cases.lib.
Proof.
  split.
  - exact Cases_precedence.
  - exact SemVerTotal.compare_respects_equal.
Qed.

(** ** More examples *)

Module MoreExamples.
Import Demo Cases.

#[local] Existing Instance Cases.lib.

Ltac present := vm_compute; repeat (first [left; reflexivity | right]).

Lemma resolved (w : World) (source v : string) :
  fst (get_latest_version w (start source)) = Return v ->
  resolves w source v.
Proof.
  intros H. exists (snd (get_latest_version w (start source))).
  rewrite <- H. apply surjective_pairing.
Defined.

Lemma odd_tag_stops_resolution :
  get_latest_version odd_tag (start page) =
  (Raise "ValueError", record (Run tags_cmd warned) (start page)).
Proof.
  apply (@invalid_tag_stops_resolution Cases.lib odd_tag (start page)
           (List.map tag_value odd_names) odd_names).
  - reflexivity.
  - repeat constructor.
  - apply Exists_cons_tl, Exists_cons_hd. reflexivity.
Defined.

Lemma first_of_tied_tags_is_returned :
  fst (get_latest_version tied_tags (start page)) = Return "1.0.0+a" /\
  exists pre m post,
    tied_versions = (pre ++ m :: post)%list /\
    (forall v, In v pre -> SemVer.compare m v = Gt) /\
    (forall v, In v post -> SemVer.compare v m <> Gt) /\
    get_latest_version tied_tags (start page) =
      (Return (SemVer.to_str m), record (Run tags_cmd (ok tags_tied)) (start page)).
Proof.
  split; [reflexivity|].
  apply (@first_of_equal_precedence_is_returned Cases.lib tied_tags Cases_total
           (start page) (List.map tag_value tied_names) tied_names tied_versions).
  - reflexivity.
  - reflexivity.
  - repeat constructor.
  - repeat constructor.
  - discriminate.
Defined.

Lemma published_run_ends_with_the_link :
  let run := run_script release_out page in
  exit_code (fst run) = 0 /\
  exists msg rest,
    log (snd run) = Print Out msg :: rest /\
    ((fst run = Exit 0 /\
      (msg = "Already up to date" \/
       exists v, msg = "Issue '" ++ issue_title v ++ "' is closed")) \/
     (fst run = Return tt /\
      ((exists x, msg = "Pull request: " ++ x) \/
       exists v x, msg = "The issue '" ++ issue_title v ++ "' was created in " ++ x))).
Proof.
  intros run. split; [reflexivity|].
  exact (@exit_0_ends_with_a_message Demo.cfg Cases.lib release_out page
           (fst run) (snd run) (surjective_pairing run) eq_refl).
Defined.

Lemma release_out_run_passed_every_check :
  let run := run_script release_out page in
  let cmd := pr_create_cmd (branch_of "3.0.0") (pr_title "3.0.0") (pr_body "3.0.0") in
  In (Run cmd (pr_create fresh_release)) (log (snd run)) /\
  exists v,
    resolves release_out page v /\
    cmd = pr_create_cmd (branch_of v) (pr_title v) (pr_body v) /\
    cdn_url v <> DEFAULT_PLOTLY /\
    reachable (log (snd run)) (cdn_url v) /\
    branch_missing (log (snd run)) (branch_of v) /\
    pr_missing (log (snd run)) (branch_of v) /\
    changelog_ok (log (snd run)) v /\
    pushed (log (snd run)) (branch_of v).
Proof.
  intros run cmd.
  assert (H : In (Run cmd (pr_create fresh_release)) (log (snd run))) by present.
  split; [exact H|].
  exact (@pull_request_follows_every_check Demo.cfg Cases.lib release_out page
           (fst run) (snd run) cmd (pr_create fresh_release)
           (surjective_pairing run) H eq_refl).
Defined.

Lemma issue_of_missing_bundle_follows_search :
  let run := run_script (bundle_missing issues_none) page in
  let cmd := issue_create_cmd (issue_title "3.0.0") (issue_body (cdn_url "3.0.0")) in
  In (Run cmd (issue_create fresh_release)) (log (snd run)) /\
  exists v,
    resolves (bundle_missing issues_none) page v /\
    cmd = issue_create_cmd (issue_title v) (issue_body (cdn_url v)) /\
    unreachable (log (snd run)) (cdn_url v) /\
    exists ri doc,
      In (Run (issue_list_cmd (issue_title v)) ri) (log (snd run)) /\
      json_loads (stdout ri) = Some doc /\ Json.truthy doc = false.
Proof.
  intros run cmd.
  assert (H : In (Run cmd (issue_create fresh_release)) (log (snd run))) by present.
  split; [exact H|].
  exact (@issue_follows_failed_request_and_empty_search Demo.cfg Cases.lib
           (bundle_missing issues_none) page (fst run) (snd run) cmd
           (issue_create fresh_release) (surjective_pairing run) H eq_refl).
Defined.

(** The three git steps before the push fail, and the run pushes, opens the
    pull request and ends normally all the same. *)
Example failing_git_steps_go_unnoticed :
  let run := run_script git_fails page in
  fst run = Return tt /\
  List.filter is_git (log (snd run)) =
    [Run (push_cmd (branch_of "3.0.0")) (push fresh_release);
     Run (commit_cmd (pr_title "3.0.0")) nothing_to_commit;
     Run add_cmd index_locked;
     Run (checkout_cmd (branch_of "3.0.0")) branch_taken] /\
  count is_pr_create (log (snd run)) = 1%nat.
Proof. repeat split; reflexivity. Qed.

Lemma warning_on_stderr_is_no_failure :
  let run := run_script pr_warns page in
  let cmd := pr_create_cmd (branch_of "3.0.0") (pr_title "3.0.0") (pr_body "3.0.0") in
  In (Run cmd pr_warned) (log (snd run)) /\
  stderr pr_warned <> "" /\
  fst run = Return tt /\
  exists rest,
    log (snd run) =
      Print Out "Pull request: https://github.com/plotly/Kaleido/pull/99"
        :: Run cmd pr_warned :: rest.
Proof.
  intros run cmd.
  assert (H : In (Run cmd pr_warned) (log (snd run))) by present.
  split; [exact H|]. split; [discriminate|].
  destruct (@pull_request_creation_is_judged_by_exit_code Demo.cfg Cases.lib
              pr_warns page (fst run) (snd run) cmd pr_warned
              (surjective_pairing run) H eq_refl) as (rest & Hok & _).
  destruct (Hok eq_refl) as (Hlink & _).
  destruct (Hlink _ eq_refl) as (E & L).
  split; [exact E|]. exists rest. exact L.
Defined.

Lemma silent_failure_of_issue_creation_passes :
  let run := run_script issue_fails_silently page in
  let cmd := issue_create_cmd (issue_title "3.0.0") (issue_body (cdn_url "3.0.0")) in
  In (Run cmd created_silently) (log (snd run)) /\
  returncode created_silently = 1 /\
  fst run = Return tt /\
  (exists rest,
      log (snd run) =
        Print Out ("The issue 'CDN not reachable for Plotly.js v3.0.0' was created in "
                   ++ "https://github.com/plotly/Kaleido/issues/58") :: rest) /\
  exists v rest,
    log (snd run) =
      Print Out ("The issue 'CDN not reachable for Plotly.js v" ++ v
                 ++ "' was created in "
                 ++ PyStr.strip (stdout created_silently))
        :: Run cmd created_silently :: rest.
Proof.
  intros run cmd.
  assert (H : In (Run cmd created_silently) (log (snd run))) by present.
  split; [exact H|]. split; [reflexivity|].
  destruct (@issue_creation_is_judged_by_stderr Demo.cfg Cases.lib
              issue_fails_silently page (fst run) (snd run) cmd created_silently
              (surjective_pairing run) H eq_refl) as (v & rest & _ & Hok & _).
  destruct (Hok eq_refl) as (Hlink & _).
  destruct (Hlink _ eq_refl) as (E & L).
  split; [exact E|]. split; [eexists; reflexivity|].
  exists v, rest. exact L.
Defined.

Lemma unanswered_request_run_raises :
  let run := run_script no_answer page in
  In (Head (cdn_url "3.0.0") None) (log (snd run)) /\
  fst run = Raise "ClientError" /\
  page_source (snd run) = page /\
  count is_issue_op (log (snd run)) = 0%nat.
Proof.
  intros run.
  assert (H : In (Head (cdn_url "3.0.0") None) (log (snd run))) by present.
  split; [exact H|].
  destruct (@unanswered_request_ends_run Demo.cfg Cases.lib no_answer page
              (cdn_url "3.0.0") (fst run) (snd run) (surjective_pairing run) H)
    as (E & _ & P & v & r & _ & _ & L).
  split; [exact E|]. split; [exact P|]. now rewrite L.
Defined.

Lemma redirected_bundle_leaves_tree_alone :
  let run := run_script moved page in
  unreachable (log (snd run)) (cdn_url "3.0.0") /\
  page_source (snd run) = page /\
  count is_write (log (snd run)) = 0%nat /\
  count is_git (log (snd run)) = 0%nat /\
  count is_changelog (log (snd run)) = 0%nat /\
  count is_pr_op (log (snd run)) = 0%nat.
Proof.
  intros run.
  assert (H : unreachable (log (snd run)) (cdn_url "3.0.0")).
  { exists 301. split; [present|discriminate]. }
  split; [exact H|].
  exact (@unreachable_release_leaves_tree_alone Demo.cfg Cases.lib moved page
           (cdn_url "3.0.0") (fst run) (snd run) (surjective_pairing run) H).
Defined.

Lemma issue_without_state_counts_as_closed :
  let run := run_script (bundle_missing issues_stateless) page in
  issues_listed (log (snd run)) (issue_title "3.0.0") [[("number", JNum 41)]] /\
  fst run = Exit 0 /\
  count is_issue_create (log (snd run)) = 0%nat /\
  exists rest,
    log (snd run) = Print Out ("Issue '" ++ issue_title "3.0.0" ++ "' is closed") :: rest.
Proof.
  intros run.
  assert (H1 : unreachable (log (snd run)) (cdn_url "3.0.0")).
  { exists 404. split; [present|discriminate]. }
  assert (H2 : issues_listed (log (snd run)) (issue_title "3.0.0")
                 [[("number", JNum 41)]]).
  { exists (ok issues_stateless), issues_stateless.
    split; [present|]. split; reflexivity. }
  split; [exact H2|].
  apply (@only_OPEN_counts_as_open Demo.cfg Cases.lib
           (bundle_missing issues_stateless) page "3.0.0" (fst run) (snd run)
           [[("number", JNum 41)]]
           (resolved (bundle_missing issues_stateless) page "3.0.0" eq_refl)
           (surjective_pairing run) H1 H2).
  - discriminate.
  - repeat constructor. discriminate.
Defined.

Lemma error_object_run_raises :
  let run := run_script (bundle_missing error_payload) page in
  In (Run (issue_list_cmd (issue_title "3.0.0")) (ok error_payload)) (log (snd run)) /\
  fst run = Raise "AttributeError" /\
  count is_issue_create (log (snd run)) = 0%nat.
Proof.
  intros run.
  assert (H : In (Run (issue_list_cmd (issue_title "3.0.0")) (ok error_payload))
                 (log (snd run))) by present.
  split; [exact H|].
  destruct (@object_answer_to_issue_search_raises Demo.cfg Cases.lib
              (bundle_missing error_payload) page "3.0.0" (fst run) (snd run)
              (ok error_payload) error_payload [("message", JStr "Bad credentials")]
              (resolved (bundle_missing error_payload) page "3.0.0" eq_refl)
              (surjective_pairing run) H eq_refl eq_refl) as (E & _ & C).
  { discriminate. }
  split; assumption.
Defined.

Lemma page_without_the_constant_stays :
  let run := run_script release_out other_page in
  PyStr.contains DEFAULT_PLOTLY other_page = false /\
  fst run = Return tt /\
  count is_pr_create (log (snd run)) = 1%nat /\
  page_source (snd run) = other_page.
Proof.
  intros run.
  split; [reflexivity|]. split; [reflexivity|]. split; [reflexivity|].
  exact (proj1 (@absent_constant_gives_unchanged_file Demo.cfg Cases.lib release_out
                  other_page (fst run) (snd run) (surjective_pairing run) eq_refl)).
Defined.

Lemma rejected_push_is_reported_on_stderr :
  let run := run_script push_rejected page in
  fst run = Exit 1 /\
  exists to msg rest,
    log (snd run) = Print to msg :: rest /\
    (to = Err <-> exists v, reachable (log (snd run)) (cdn_url v)).
Proof.
  intros run. split; [reflexivity|].
  exact (@exit_1_ends_with_a_message Demo.cfg Cases.lib push_rejected page
           (fst run) (snd run) (surjective_pairing run) eq_refl).
Defined.

End MoreExamples.

